(** * Miner monitoring core: protocol client, telemetry parsing, network
      scanner and polling cycle

    A shallow embedding of [miner_client.py], [agent/agent.py],
    [app/services/network_scanner.py] and [app/services/monitoring.py],
    followed by the properties of the specification that concern them.

    Conventions of the embedding.
    - A Python value that comes out of [json.loads] is a [pyval]; a dict is an
      association list in insertion order, looked up by its first matching
      key.
    - A Python [float] is modelled by the rational it denotes ([Q]): there is
      no rounding, no infinity and no NaN in the model.
    - A [str] is a sequence of code points below 256.
    - A Python exception is a value of [exn]; code that may raise returns a
      [res], and every [try]/[except] of the source is written out with
      [catch] or a [match]. *)

From Stdlib Require Import ZArith QArith Qround Qpower List String Ascii.
From Stdlib Require Import Bool Lia Permutation DecimalString.
Import ListNotations.

Set Warnings "-register-all".
Local Open Scope string_scope.
Local Open Scope list_scope.
Local Open Scope Z_scope.

(* ================================================================== *)
(** * Python values, exceptions and the builtins the sources use       *)
(* ================================================================== *)

Module Py.

Inductive exn : Type :=
| ValueError
| TypeError
| KeyError
| IndexError
| AttributeError
| UnicodeDecodeError
| JSONDecodeError
| SocketTimeout
| SocketError.

Inductive res (A : Type) : Type :=
| Ret (a : A)
| Raise (e : exn).

Arguments Ret {A} a.
Arguments Raise {A} e.

Definition bind {A B : Type} (m : res A) (k : A -> res B) : res B :=
  match m with
  | Ret a => k a
  | Raise e => Raise e
  end.

(** [try: m except (clauses): h] where [handles e] says whether a clause
    matches the exception. *)
Definition catch {A : Type} (m : res A) (handles : exn -> bool) (h : res A)
  : res A :=
  match m with
  | Ret a => Ret a
  | Raise e => if handles e then h else Raise e
  end.

Inductive pyval : Type :=
| PNone
| PBool (b : bool)
| PInt (n : Z)
| PFloat (x : Q)
| PStr (s : string)
| PList (l : list pyval)
| PDict (d : list (string * pyval))
| PCoroutine (pending : res pyval).
(** [PCoroutine r] is the coroutine object that a call of an [async def]
    function returns; its body has not run, and [r] is what awaiting it
    produces. *)

Definition await (v : pyval) : res pyval :=
  match v with
  | PCoroutine r => r
  | _ => Raise TypeError
  end.

(** ** Characters and strings *)

Definition code (c : ascii) : Z := Z.of_nat (nat_of_ascii c).

Definition is_decimal (c : ascii) : bool :=
  (48 <=? code c) && (code c <=? 57).

(** [str.isdigit] also accepts the superscript digits U+00B2, U+00B3 and
    U+00B9, which [int] rejects. *)
Definition char_isdigit (c : ascii) : bool :=
  is_decimal c || (code c =? 178) || (code c =? 179) || (code c =? 185).

(** Unicode white space below 256, as [str.split], [str.strip], [int] and
    [float] see it. *)
Definition is_space (c : ascii) : bool :=
  ((9 <=? code c) && (code c <=? 13)) || ((28 <=? code c) && (code c <=? 32))
  || (code c =? 133) || (code c =? 160).

Definition lower_char (c : ascii) : ascii :=
  if ((65 <=? code c) && (code c <=? 90))
     || ((192 <=? code c) && (code c <=? 222) && negb (code c =? 215))
  then ascii_of_nat (nat_of_ascii c + 32)
  else c.

Fixpoint lower (s : string) : string :=
  match s with
  | EmptyString => EmptyString
  | String c t => String (lower_char c) (lower t)
  end.

(** [sub in s] for two strings. *)
Fixpoint contains (sub s : string) : bool :=
  prefix sub s ||
  match s with
  | EmptyString => false
  | String _ t => contains sub t
  end.

(** [s.isdigit()]: non-empty and every character a digit. *)
Definition isdigit (s : string) : bool :=
  match list_ascii_of_string s with
  | [] => false
  | cs => forallb char_isdigit cs
  end.

Fixpoint split_from (cs cur : list ascii) : list string :=
  match cs with
  | [] =>
      match cur with
      | [] => []
      | _ => [string_of_list_ascii (rev cur)]
      end
  | c :: t =>
      if is_space c then
        match cur with
        | [] => split_from t []
        | _ => string_of_list_ascii (rev cur) :: split_from t []
        end
      else split_from t (c :: cur)
  end.

(** [s.split()] with no argument: the maximal runs of non-space. *)
Definition split (s : string) : list string :=
  split_from (list_ascii_of_string s) [].

Fixpoint lstrip (cs : list ascii) : list ascii :=
  match cs with
  | c :: t => if is_space c then lstrip t else cs
  | [] => []
  end.

Definition strip (cs : list ascii) : list ascii :=
  rev (lstrip (rev (lstrip cs))).

(** ** Numeric literals: [int(str)] and [float(str)] *)

Fixpoint span_decimal (cs : list ascii) : list ascii * list ascii :=
  match cs with
  | c :: t =>
      if is_decimal c then
        let (ds, rest) := span_decimal t in (c :: ds, rest)
      else ([], cs)
  | [] => ([], [])
  end.

Definition digits_value (ds : list ascii) : Z :=
  fold_left (fun acc c => 10 * acc + (code c - 48)) ds 0.

Definition take_sign (cs : list ascii) : bool * list ascii :=
  match cs with
  | "-"%char :: t => (true, t)
  | "+"%char :: t => (false, t)
  | _ => (false, cs)
  end.

Definition apply_sign (neg : bool) (n : Z) : Z := if neg then - n else n.

(** [int(s)] for a [str]: optional surrounding white space, an optional
    sign, one or more decimal digits.  Digit-group underscores are outside
    the model. *)
Definition int_of_str (s : string) : option Z :=
  let (neg, body) := take_sign (strip (list_ascii_of_string s)) in
  match span_decimal body with
  | ((_ :: _) as ds, []) => Some (apply_sign neg (digits_value ds))
  | _ => None
  end.

Definition exponent_of (cs : list ascii) : option (Z * list ascii) :=
  match cs with
  | c :: t =>
      if (code c =? 101) || (code c =? 69) then
        let (neg, body) := take_sign t in
        match span_decimal body with
        | ((_ :: _) as ds, rest) =>
            Some (apply_sign neg (digits_value ds), rest)
        | _ => None
        end
      else Some (0, cs)
  | [] => Some (0, [])
  end.

(** [float(s)] for a [str]: optional white space and sign, digits with an
    optional fraction, an optional exponent.  The literals [inf] and [nan]
    and digit-group underscores are outside the model. *)
Definition float_of_str (s : string) : option Q :=
  let (neg, body) := take_sign (strip (list_ascii_of_string s)) in
  let (ip, r1) := span_decimal body in
  let (fp, r2) :=
    match r1 with
    | "."%char :: t => span_decimal t
    | _ => ([], r1)
    end in
  match (ip ++ fp)%list with
  | [] => None
  | ds =>
      match exponent_of r2 with
      | Some (e, []) =>
          let m := inject_Z (apply_sign neg (digits_value ds)) in
          Some (m * Qpower 10 (e - Z.of_nat (List.length fp)))%Q
      | _ => None
      end
  end.

(** ** Rendering: [str(v)] and [repr(v)] *)

Local Infix "+++" := String.append (right associativity, at level 60).

Definition str_of_Z (n : Z) : string := NilZero.string_of_int (Z.to_int n).

Definition digit_char (d : Z) : ascii :=
  nth (Z.to_nat d) (list_ascii_of_string "0123456789abcdef") "0"%char.

Fixpoint frac_digits (fuel : nat) (num den : Z) : string :=
  match fuel with
  | O => EmptyString
  | S f =>
      if num =? 0 then EmptyString
      else String (digit_char (10 * num / den))
                  (frac_digits f ((10 * num) mod den) den)
  end.

(** Rendering of a float.  Python prints the shortest decimal that reads
    back as the same double; the model prints the decimal expansion of the
    rational (at most 17 fraction digits), which is the same text for the
    short decimals a device reports.  Like Python's, the text always holds
    a ['.']. *)
Definition repr_float (q : Q) : string :=
  let a := Z.abs (Qnum q) in
  let d := Zpos (Qden q) in
  (if Qnum q <? 0 then "-" else EmptyString) +++ str_of_Z (a / d) +++ "." +++
  (if a mod d =? 0 then "0" else frac_digits 17 (a mod d) d).

Definition printable (c : ascii) : bool :=
  ((32 <=? code c) && (code c <=? 126))
  || ((161 <=? code c) && negb (code c =? 173)).

Definition backslash : ascii := ascii_of_nat 92.
Definition dquote : ascii := ascii_of_nat 34.

Definition escape_char (quote c : ascii) : string :=
  if (code c =? 92) then "\\"
  else if (code c =? code quote) then String backslash (String c EmptyString)
  else if (code c =? 10) then "\n"
  else if (code c =? 13) then "\r"
  else if (code c =? 9) then "\t"
  else if printable c then String c EmptyString
  else String backslash (String "x"%char
         (String (digit_char (code c / 16))
            (String (digit_char (code c mod 16)) EmptyString))).

Fixpoint escape (quote : ascii) (s : string) : string :=
  match s with
  | EmptyString => EmptyString
  | String c t => escape_char quote c +++ escape quote t
  end.

Definition repr_str (s : string) : string :=
  let quote :=
    if contains "'" s && negb (contains (String dquote EmptyString) s)
    then dquote else "'"%char in
  String quote (escape quote s +++ String quote EmptyString).

Fixpoint repr (v : pyval) : string :=
  match v with
  | PNone => "None"
  | PBool true => "True"
  | PBool false => "False"
  | PInt n => str_of_Z n
  | PFloat q => repr_float q
  | PStr s => repr_str s
  | PList l =>
      "[" +++
       (fix items (l : list pyval) : string :=
          match l with
          | [] => EmptyString
          | x :: t =>
              repr x +++
              match t with [] => EmptyString | _ => ", " +++ items t end
          end) l +++ "]"
  | PDict d =>
      "{" +++
       (fix entries (d : list (string * pyval)) : string :=
          match d with
          | [] => EmptyString
          | (k, x) :: t =>
              repr_str k +++ ": " +++ repr x +++
              match t with [] => EmptyString | _ => ", " +++ entries t end
          end) d +++ "}"
  | PCoroutine _ => "<coroutine object>"
  end.

Definition py_str (v : pyval) : string :=
  match v with
  | PStr s => s
  | _ => repr v
  end.

(** ** Truth value, membership, subscripting *)

Definition truthy (v : pyval) : bool :=
  match v with
  | PNone => false
  | PBool b => b
  | PInt n => negb (n =? 0)
  | PFloat q => negb (Qeq_bool q 0)
  | PStr s => negb (s =? EmptyString)%string
  | PList l => match l with [] => false | _ => true end
  | PDict d => match d with [] => false | _ => true end
  | PCoroutine _ => true
  end.

Fixpoint dict_get (k : string) (d : list (string * pyval)) : option pyval :=
  match d with
  | [] => None
  | (k', v) :: t => if (k' =? k)%string then Some v else dict_get k t
  end.

Definition is_str (k : string) (v : pyval) : bool :=
  match v with
  | PStr s => (s =? k)%string
  | _ => false
  end.

(** [k in v] for a [str] key [k]. *)
Definition py_in (k : string) (v : pyval) : res bool :=
  match v with
  | PDict d => Ret (match dict_get k d with Some _ => true | None => false end)
  | PList l => Ret (existsb (is_str k) l)
  | PStr s => Ret (contains k s)
  | _ => Raise TypeError
  end.

(** [v.get(k, default)]: only a dict has the method. *)
Definition py_get (v : pyval) (k : string) (default : pyval) : res pyval :=
  match v with
  | PDict d =>
      Ret (match dict_get k d with Some x => x | None => default end)
  | _ => Raise AttributeError
  end.

(** [v[k]] for a [str] key [k]. *)
Definition getitem_key (v : pyval) (k : string) : res pyval :=
  match v with
  | PDict d =>
      match dict_get k d with
      | Some x => Ret x
      | None => Raise KeyError
      end
  | _ => Raise TypeError
  end.

(** [v[0]]; a dict decoded from JSON has only [str] keys. *)
Definition getitem_first (v : pyval) : res pyval :=
  match v with
  | PList (x :: _) => Ret x
  | PList [] => Raise IndexError
  | PStr (String c _) => Ret (PStr (String c EmptyString))
  | PStr EmptyString => Raise IndexError
  | PDict _ => Raise KeyError
  | _ => Raise TypeError
  end.

(** [v[-1]]. *)
Definition getitem_last (v : pyval) : res pyval :=
  match v with
  | PList l =>
      match rev l with
      | x :: _ => Ret x
      | [] => Raise IndexError
      end
  | PStr s =>
      match rev (list_ascii_of_string s) with
      | c :: _ => Ret (PStr (String c EmptyString))
      | [] => Raise IndexError
      end
  | PDict _ => Raise KeyError
  | _ => Raise TypeError
  end.

Definition is_list (v : pyval) : bool :=
  match v with PList _ => true | _ => false end.

Definition is_dict (v : pyval) : bool :=
  match v with PDict _ => true | _ => false end.

Definition py_len (v : pyval) : res Z :=
  match v with
  | PStr s => Ret (Z.of_nat (String.length s))
  | PList l => Ret (Z.of_nat (List.length l))
  | PDict d => Ret (Z.of_nat (List.length d))
  | _ => Raise TypeError
  end.

(** ** Conversions and [max] *)

Definition Q_of_bool (b : bool) : Q := if b then 1%Q else 0%Q.

Definition py_float (v : pyval) : res Q :=
  match v with
  | PInt n => Ret (inject_Z n)
  | PBool b => Ret (Q_of_bool b)
  | PFloat q => Ret q
  | PStr s =>
      match float_of_str s with
      | Some q => Ret q
      | None => Raise ValueError
      end
  | _ => Raise TypeError
  end.

(** [int] of a float truncates towards zero. *)
Definition Qtrunc (q : Q) : Z :=
  if Qle_bool 0 q then Qfloor q else Qceiling q.

Definition py_int (v : pyval) : res Z :=
  match v with
  | PInt n => Ret n
  | PBool b => Ret (if b then 1 else 0)
  | PFloat q => Ret (Qtrunc q)
  | PStr s =>
      match int_of_str s with
      | Some n => Ret n
      | None => Raise ValueError
      end
  | _ => Raise TypeError
  end.

Definition num_of (v : pyval) : option Q :=
  match v with
  | PInt n => Some (inject_Z n)
  | PFloat q => Some q
  | PBool b => Some (Q_of_bool b)
  | _ => None
  end.

(** [a > b].  Numbers compare by value and strings by code points; every
    other pair raises.  (Python also orders two lists; a list as maximum is
    then rejected with the same [TypeError] by the [float] or [int] that the
    callers apply to it.) *)
Definition py_gt (a b : pyval) : res bool :=
  match num_of a, num_of b with
  | Some x, Some y => Ret (negb (Qle_bool x y))
  | _, _ =>
      match a, b with
      | PStr s, PStr t => Ret (String.ltb t s)
      | _, _ => Raise TypeError
      end
  end.

Fixpoint max_from (cur : pyval) (l : list pyval) : res pyval :=
  match l with
  | [] => Ret cur
  | x :: t =>
      bind (py_gt x cur) (fun g => max_from (if g then x else cur) t)
  end.

(** [max(l)] of a list: the first of the greatest elements. *)
Definition py_max (l : list pyval) : res pyval :=
  match l with
  | [] => Raise ValueError
  | x :: t => max_from x t
  end.

End Py.

Import Py.

Notation "x <- m ;; k" := (bind m (fun x => k))
  (at level 61, m at next level, right associativity).

(* ================================================================== *)
(** * miner_client.py                                                  *)
(* ================================================================== *)

Module MinerClient.

(** ** The exchange with one device, as the socket calls see it *)

Inductive io_outcome : Type :=
| Done
| TimedOut        (* socket.timeout *)
| Failed.         (* another socket.error: refused, unreachable, reset *)

Inductive recv_event : Type :=
| Chunk (data : string)   (* recv returns these bytes *)
| RecvTimeout             (* recv raises socket.timeout *)
| RecvError.              (* recv raises another socket.error *)

(** What one connection does: the outcome of [connect], the outcome of
    [sendall], and the successive outcomes of [recv]; once [received] is
    used up the peer has closed and [recv] returns no bytes. *)
Record exchange : Type := {
  on_connect : io_outcome;
  on_sendall : io_outcome;
  received : list recv_event
}.

Definition io (o : io_outcome) : res unit :=
  match o with
  | Done => Ret tt
  | TimedOut => Raise SocketTimeout
  | Failed => Raise SocketError
  end.

(** [json.dumps] rejects what is not JSON data; of the values of the model
    that is a coroutine object. *)
Fixpoint serializable (v : pyval) : bool :=
  match v with
  | PCoroutine _ => false
  | PList l => forallb serializable l
  | PDict d =>
      (fix all (d : list (string * pyval)) : bool :=
         match d with
         | [] => true
         | (_, x) :: t => serializable x && all t
         end) d
  | _ => true
  end.

Definition json_dumps (command : pyval) : res unit :=
  if serializable command then Ret tt else Raise TypeError.

Section Client.

(** [loads b] is [json.loads(b.decode('utf-8'))]: the decoded value, or
    [JSONDecodeError], or [UnicodeDecodeError]. *)
Variable loads : string -> res pyval.

(** The code after the [while] loop. *)
Definition after_loop (response : string) : res pyval :=
  if negb (response =? EmptyString)%string then
    match loads response with
    | Ret data => Ret data
    | Raise JSONDecodeError => Ret PNone
    | Raise e => Raise e
    end
  else Ret PNone.

(** The [while True] loop, entered with the bytes read so far, followed by
    the code after it. *)
Fixpoint read_loop (events : list recv_event) (response : string)
  : res pyval :=
  match events with
  | [] => after_loop response
  | Chunk chunk :: rest =>
      if (chunk =? EmptyString)%string then after_loop response
      else
        let response := String.append response chunk in
        match loads response with
        | Ret data => Ret data
        | Raise JSONDecodeError => read_loop rest response
        | Raise e => Raise e
        end
  | RecvTimeout :: _ =>
      if negb (response =? EmptyString)%string then
        match loads response with
        | Ret data => Ret data
        | Raise JSONDecodeError => after_loop response
        | Raise e => Raise e
        end
      else after_loop response
  | RecvError :: _ => Raise SocketError
  end.

(** The body of the outer [try]. *)
Definition send_command_body (x : exchange) (command : pyval) : res pyval :=
  _ <- io (on_connect x) ;;
  _ <- json_dumps command ;;
  _ <- io (on_sendall x) ;;
  read_loop (received x) EmptyString.

Definition _send_command (x : exchange) (command : pyval) : res pyval :=
  match send_command_body x command with
  | Ret data => Ret data
  | Raise SocketTimeout => Ret PNone
  | Raise SocketError => Ret PNone
  | Raise JSONDecodeError => Ret PNone
  | Raise _ => Ret PNone                (* except Exception *)
  end.

(** A device answers each command on a connection of its own. *)
Definition device : Type := string -> exchange.

Definition command_of (name : string) : pyval :=
  PDict [("command", PStr name)].

(** The four [async def] accessors: calling one returns a coroutine object
    that, when awaited, runs [_send_command]. *)
Definition get_summary (dev : device) : pyval :=
  PCoroutine (_send_command (dev "summary") (command_of "summary")).

Definition get_stats (dev : device) : pyval :=
  PCoroutine (_send_command (dev "stats") (command_of "stats")).

Definition get_pools (dev : device) : pyval :=
  PCoroutine (_send_command (dev "pools") (command_of "pools")).

Definition get_devs (dev : device) : pyval :=
  PCoroutine (_send_command (dev "devs") (command_of "devs")).

(** [get_all_data], with [now] the text of [datetime.utcnow().isoformat()]. *)
Definition get_all_data (now : string) (dev : device) : pyval :=
  PCoroutine
    (match
       (summary <- await (get_summary dev) ;;
        stats <- await (get_stats dev) ;;
        pools <- await (get_pools dev) ;;
        devs <- await (get_devs dev) ;;
        Ret (PDict [("summary", summary); ("stats", stats);
                    ("pools", pools); ("devs", devs);
                    ("timestamp", PStr now)]))
     with
     | Ret all => Ret all
     | Raise _ => Ret PNone
     end).

End Client.

(** ** Parsing *)

Record summary_parsed : Type := {
  hash_rate : Q;
  accepted_shares : Z;
  rejected_shares : Z;
  pool_switches : Z;
  raw_data : pyval
}.

(** [int(summary_data.get(key, 0))]. *)
Definition int_field (summary_data : pyval) (key : string) : res Z :=
  v <- py_get summary_data key (PInt 0) ;;
  py_int v.

(** The hash rate, from the short window if the device reports one and
    else from the long-run average. *)
Definition hash_rate_of (summary_data : pyval) : res Q :=
  short <- py_in "GHS 5s" summary_data ;;
  if short then
    v <- py_get summary_data "GHS 5s" (PInt 0) ;; py_float v
  else
    long <- py_in "GHS av" summary_data ;;
    if long then
      v <- py_get summary_data "GHS av" (PInt 0) ;; py_float v
    else Ret 0%Q.

(** The dict built from the data object, its values in the order in which
    Python evaluates them. *)
Definition summary_record (summary_data : pyval) : res summary_parsed :=
  hash_rate <- hash_rate_of summary_data ;;
  accepted <- int_field summary_data "Accepted" ;;
  rejected <- int_field summary_data "Rejected" ;;
  switches <- int_field summary_data "Pool Switches" ;;
  Ret {| hash_rate := hash_rate;
         accepted_shares := accepted;
         rejected_shares := rejected;
         pool_switches := switches;
         raw_data := summary_data |}.

(** The returned dict is [Some] record, and the empty dict [{}] is [None]. *)
Definition parse_summary_data (summary : pyval) : res (option summary_parsed) :=
  if negb (truthy summary) then Ret None else
  present <- py_in "SUMMARY" summary ;;
  if negb present then Ret None else
  listed <- py_get summary "SUMMARY" PNone ;;
  summary_data <-
    (if is_list listed then
       l <- getitem_key summary "SUMMARY" ;; getitem_first l
     else Ret (PDict [])) ;;
  r <- summary_record summary_data ;;
  Ret (Some r).

Record stats_parsed : Type := {
  temperature : option Q;
  fan_speed : option Z;
  power_consumption : option Q;
  stats_raw_data : pyval
}.

(** [conv(max(xs)) if isinstance(xs, list) else conv(xs)], under the guard
    [if xs and len(xs) > 0]. *)
Definition sensor_reading {A : Type} (conv : pyval -> res A) (xs : pyval)
  : res (option A) :=
  if truthy xs then
    n <- py_len xs ;;
    if 0 <? n then
      match xs with
      | PList l => m <- py_max l ;; r <- conv m ;; Ret (Some r)
      | _ => r <- conv xs ;; Ret (Some r)
      end
    else Ret None
  else Ret None.

(** The dict built from the latest entry of the statistics. *)
Definition stats_record (latest_stats : pyval) : res stats_parsed :=
  has_temp <- py_in "temperature" latest_stats ;;
  temperature <-
    (if has_temp then
       temps <- py_get latest_stats "temperature" (PList []) ;;
       sensor_reading py_float temps
     else Ret None) ;;
  has_fan <- py_in "fan" latest_stats ;;
  fan_speed <-
    (if has_fan then
       fans <- py_get latest_stats "fan" (PList []) ;;
       sensor_reading py_int fans
     else Ret None) ;;
  has_power <- py_in "power" latest_stats ;;
  power_consumption <-
    (if has_power then
       v <- py_get latest_stats "power" (PInt 0) ;;
       q <- py_float v ;; Ret (Some q)
     else Ret None) ;;
  Ret {| temperature := temperature;
         fan_speed := fan_speed;
         power_consumption := power_consumption;
         stats_raw_data := latest_stats |}.

Definition parse_stats_data (stats : pyval) : res (option stats_parsed) :=
  if negb (truthy stats) then Ret None else
  present <- py_in "STATS" stats ;;
  if negb present then Ret None else
  stats_list <- py_get stats "STATS" (PList []) ;;
  if negb (truthy stats_list) then Ret None else
  latest_stats <- getitem_last stats_list ;;
  r <- stats_record latest_stats ;;
  Ret (Some r).

End MinerClient.

(* ================================================================== *)
(** * agent/agent.py: MonitoringAgent.poll_miner                       *)
(* ================================================================== *)

Module Agent.

(** The telemetry fields of the dict that [poll_miner] returns (the
    address and the capture time are left out). *)
Record sample : Type := {
  hash_rate : option Q;
  accepted_shares : pyval;
  rejected_shares : pyval;
  pool_switches : pyval;
  temperature : option Z;
  fan_speed : option Z;
  power_consumption : option Q;
  summary_data : pyval;
  stats_data : pyval
}.

(** The data object of a response, for [key] one of ["SUMMARY"] and
    ["STATS"]:
    [[
    data = {}
    if isinstance(resp, dict):
        if key in resp and resp[key]:
            data = resp[key][0] if isinstance(resp[key], list) else resp[key]
        else:
            data = resp
    ]] *)
Definition payload (key : string) (resp : pyval) : res pyval :=
  if is_dict resp then
    present <- py_in key resp ;;
    if present then
      v <- getitem_key resp key ;;
      if truthy v then
        if is_list v then getitem_first v else Ret v
      else Ret resp
    else Ret resp
  else Ret (PDict []).

Definition handles_value_type (e : exn) : bool :=
  match e with
  | ValueError | TypeError => true
  | _ => false
  end.

(** [[int(t) for t in text.split() if t.isdigit()]]. *)
Fixpoint digit_tokens (tokens : list string) : res (list Z) :=
  match tokens with
  | [] => Ret []
  | t :: rest =>
      if isdigit t then
        match int_of_str t with
        | Some n => ns <- digit_tokens rest ;; Ret (n :: ns)
        | None => Raise ValueError
        end
      else digit_tokens rest
  end.

Definition max_Z (n : Z) (ns : list Z) : Z := fold_left Z.max ns n.

(** The [try] block shared by the temperature and the fan field. *)
Definition sensor (data : pyval) (key : string) : res (option Z) :=
  present <- py_in key data ;;
  if present then
    catch
      (v <- getitem_key data key ;;
       ns <- digit_tokens (split (py_str v)) ;;
       match ns with
       | n :: rest => Ret (Some (max_Z n rest))
       | [] => Ret None
       end)
      handles_value_type (Ret None)
  else Ret None.

(** The hash rate in TH/s, from the short window only. *)
Definition hash_rate_of (summary_data : pyval) : res (option Q) :=
  short <- py_in "GHS 5s" summary_data ;;
  if short then
    catch
      (v <- getitem_key summary_data "GHS 5s" ;;
       q <- py_float v ;;
       Ret (Some (q / 1000)%Q))
      handles_value_type (Ret None)
  else Ret None.

(** The telemetry read off the two data objects. *)
Definition telemetry (summary_data stats_data : pyval) : res sample :=
  hash_rate <- hash_rate_of summary_data ;;
  accepted <- py_get summary_data "Accepted" PNone ;;
  rejected <- py_get summary_data "Rejected" PNone ;;
  switches <- py_get summary_data "Pool Rejected%" PNone ;;
  temperature <-
    (if is_dict stats_data then sensor stats_data "temp" else Ret None) ;;
  fan_speed <-
    (if is_dict stats_data then sensor stats_data "fan" else Ret None) ;;
  Ret {| hash_rate := hash_rate;
         accepted_shares := accepted;
         rejected_shares := rejected;
         pool_switches := switches;
         temperature := temperature;
         fan_speed := fan_speed;
         power_consumption := None;
         summary_data := summary_data;
         stats_data := stats_data |}.

(** [poll_miner] from the two responses on: [summary] and [stats] are what
    the two executor calls returned.  [None] is the [return None] of the
    function, on a falsy summary or on an exception. *)
Definition poll_miner_body (summary stats : pyval) : res (option sample) :=
  if negb (truthy summary) then Ret None else
  summary_data <- payload "SUMMARY" summary ;;
  stats_data <- payload "STATS" stats ;;
  r <- telemetry summary_data stats_data ;;
  Ret (Some r).

Definition poll_miner_from (summary stats : pyval) : option sample :=
  match poll_miner_body summary stats with
  | Ret r => r
  | Raise _ => None                     (* except Exception *)
  end.

(** [poll_miner]: [run_in_executor(None, client.get_summary)] calls the
    accessor in a worker thread and hands back what the call returned. *)
Definition poll_miner (loads : string -> res pyval)
  (dev : MinerClient.device) : option sample :=
  poll_miner_from (MinerClient.get_summary loads dev)
                  (MinerClient.get_stats loads dev).

End Agent.

(* ================================================================== *)
(** * The [ipaddress] module, as far as [scan_network] uses it         *)
(* ================================================================== *)

Module IPAddress.

(** An [IPv4Network]: the network address as a 32-bit integer and the
    prefix length. *)
Record IPv4Network : Type := {
  network_address : Z;
  prefixlen : Z
}.

Definition ALL_ONES : Z := 2 ^ 32 - 1.

Definition netmask (prefixlen : Z) : Z :=
  Z.lxor ALL_ONES (Z.shiftr ALL_ONES prefixlen).

Definition hostmask (prefixlen : Z) : Z :=
  Z.lxor (netmask prefixlen) ALL_ONES.

(** [ip_network((address, prefixlen), strict=False)]: host bits are masked
    off. *)
Definition make_network (address prefixlen : Z) : IPv4Network :=
  {| network_address := Z.land address (netmask prefixlen);
     prefixlen := prefixlen |}.

Definition broadcast_address (net : IPv4Network) : Z :=
  Z.lor (network_address net) (hostmask (prefixlen net)).

(** [range(lo, hi)]. *)
Definition py_range (lo hi : Z) : list Z :=
  map (fun i => lo + Z.of_nat i) (seq 0 (Z.to_nat (hi - lo))).

(** [hosts()]: every address strictly between the network and the
    broadcast address; all the addresses of a /31 and the single address of
    a /32. *)
Definition hosts (net : IPv4Network) : list Z :=
  if prefixlen net =? 31 then
    py_range (network_address net) (broadcast_address net + 1)
  else if prefixlen net =? 32 then [network_address net]
  else py_range (network_address net + 1) (broadcast_address net).

Definition valid (net : IPv4Network) : Prop :=
  0 <= prefixlen net <= 32 /\
  0 <= network_address net < 2 ^ 32 /\
  Z.land (network_address net) (hostmask (prefixlen net)) = 0.

(** [str(ip)]: the dotted quad. *)
Definition str_of_ip (a : Z) : string :=
  String.append (str_of_Z (Z.shiftr a 24))
   (String.append "."
     (String.append (str_of_Z (Z.land (Z.shiftr a 16) 255))
       (String.append "."
         (String.append (str_of_Z (Z.land (Z.shiftr a 8) 255))
           (String.append "." (str_of_Z (Z.land a 255))))))).

(** ** Reading the dotted-quad notation with a prefix length *)

Fixpoint split_on (sep : ascii) (cs cur : list ascii) : list (list ascii) :=
  match cs with
  | [] => [rev cur]
  | c :: t =>
      if (code c =? code sep) then rev cur :: split_on sep t []
      else split_on sep t (c :: cur)
  end.

Definition parse_octet (cs : list ascii) : option Z :=
  match cs with
  | [] => None
  | c :: rest =>
      if forallb is_decimal cs
         && (Z.of_nat (List.length cs) <=? 3)
         && negb ((code c =? 48) && negb (Z.of_nat (List.length rest) =? 0))
         && (digits_value cs <=? 255)
      then Some (digits_value cs) else None
  end.

Definition parse_address (cs : list ascii) : option Z :=
  match map parse_octet (split_on "."%char cs []) with
  | [Some a; Some b; Some c; Some d] =>
      Some (Z.lor (Z.shiftl a 24)
             (Z.lor (Z.shiftl b 16) (Z.lor (Z.shiftl c 8) d)))
  | _ => None
  end.

Definition parse_prefix (cs : list ascii) : option Z :=
  match cs with
  | [] => None
  | _ =>
      if forallb is_decimal cs && (digits_value cs <=? 32)
      then Some (digits_value cs) else None
  end.

(** [ip_network(s, strict=False)] on the IPv4 notation [a.b.c.d] or
    [a.b.c.d/n]; [None] is the [ValueError].  The netmask notation after the
    slash and IPv6 networks are outside the model. *)
Definition ip_network_v4 (s : string) : option IPv4Network :=
  match split_on "/"%char (list_ascii_of_string s) [] with
  | [addr] =>
      match parse_address addr with
      | Some a => Some (make_network a 32)
      | None => None
      end
  | [addr; pre] =>
      match parse_address addr, parse_prefix pre with
      | Some a, Some n => Some (make_network a n)
      | _, _ => None
      end
  | _ => None
  end.

End IPAddress.

(* ================================================================== *)
(** * app/services/network_scanner.py                                  *)
(* ================================================================== *)

Module NetworkScanner.

Import IPAddress.

Record device_record : Type := {
  ip_address : string;
  port : Z;
  manufacturer : option string;
  model : option string;
  is_accessible : bool;
  error : option string
}.

(** A task handed to the thread pool; all network traffic of a scan happens
    inside such tasks. *)
Inductive task : Type :=
| CheckPort (ip : string) (port : Z)
| IdentifyMiner (ip : string) (port : Z).

(** The classification of [identify_miner], from the value that
    [client.get_summary()] evaluated to. *)
Definition classify (summary : pyval)
  : res (option string * option string * bool) :=
  if truthy summary then
    has_type <- py_in "Type" summary ;;
    found <-
      (if has_type then
         t <- py_get summary "Type" (PStr EmptyString) ;;
         let type_str := lower (py_str t) in
         if contains "whatsminer" type_str || contains "m" type_str then
           Ret (Some "Whatsminer",
                if contains "m50" type_str || contains "M50" (py_str t)
                then Some "M50"
                else if contains "m30" type_str || contains "M30" (py_str t)
                then Some "M30"
                else if contains "m20" type_str || contains "M20" (py_str t)
                then Some "M20"
                else None)
         else Ret (None, None)
       else Ret (None, None)) ;;
    let manufacturer :=
      match fst found with
      | Some m =>
          if negb (m =? EmptyString)%string then Some m else Some "Unknown"
      | None => Some "Unknown"
      end in
    Ret (manufacturer, snd found, true)
  else Ret (None, None, false).

Section Scanner.

Variable loads : string -> res pyval.

(** [ipaddress.ip_network(network, strict=False)]; [None] is its
    [ValueError]. *)
Variable ip_network : string -> option IPv4Network.

(** [sock.connect_ex((ip, port))] under the timeout: the error number, or
    an exception. *)
Variable connect_ex : string -> Z -> res Z.

(** The device behind each address. *)
Variable devices : string -> Z -> MinerClient.device.

(** The order in which [as_completed] hands back the futures of the two
    pools. *)
Variable probes_completed : list string -> list string.
Variable identifications_completed : list string -> list string.

Definition check_port (ip : string) (port : Z) : bool :=
  match connect_ex ip port with
  | Ret result => result =? 0
  | Raise _ => false
  end.

(** [identify_miner]: [get_summary] is called, not awaited. *)
Definition identify_miner (ip : string) (port : Z)
  : option string * option string * bool :=
  let summary := MinerClient.get_summary loads (devices ip port) in
  match classify summary with
  | Ret r => r
  | Raise _ => (None, None, false)
  end.

Definition record_of (port : Z) (ip : string) : device_record :=
  let '(manufacturer, model, accessible) := identify_miner ip port in
  if accessible then
    {| ip_address := ip; port := port;
       manufacturer := manufacturer; model := model;
       is_accessible := true; error := None |}
  else
    {| ip_address := ip; port := port;
       manufacturer := None; model := None;
       is_accessible := false;
       error := Some "Could not identify miner type" |}.

(** [scan_network]: the tasks submitted to the pools, and the result.
    Neither [check_port] nor [identify_miner] lets an exception out, so the
    handlers around [future.result()] are never entered. *)
Definition scan_network (network : string) (port : Z)
  : list task * res (list device_record) :=
  match ip_network network with
  | None => ([], Raise ValueError)
  | Some network_obj =>
      let ip_list := map str_of_ip (hosts network_obj) in
      let open_ports :=
        filter (fun ip => check_port ip port) (probes_completed ip_list) in
      let discovered_miners :=
        map (record_of port) (identifications_completed open_ports) in
      ((map (fun ip => CheckPort ip port) ip_list
        ++ map (fun ip => IdentifyMiner ip port) open_ports)%list,
       Ret discovered_miners)
  end.

End Scanner.

End NetworkScanner.

(* ================================================================== *)
(** * app/services/monitoring.py                                       *)
(* ================================================================== *)

Module Monitoring.

(** A row of the [miners] table, as far as polling reads it. *)
Record Miner : Type := {
  id : Z;
  ip_address : string;
  port : Z;
  is_active : bool
}.

(** A row of the [miner_stats] table (the time stamp is left out). *)
Record MinerStats : Type := {
  miner_id : Z;
  hash_rate : option Q;
  accepted_shares : option Z;
  rejected_shares : option Z;
  pool_switches : option Z;
  temperature : option Q;
  fan_speed : option Z;
  power_consumption : option Q;
  summary_data : pyval;
  stats_data : pyval
}.

Record database : Type := {
  miners : list Miner;
  miner_stats : list MinerStats
}.

(** [db.add(miner_stats); db.commit()]. *)
Definition add_stats (db : database) (row : MinerStats) : database :=
  {| miners := miners db; miner_stats := (miner_stats db ++ [row])%list |}.

(** [parsed.get(field)] on the dict a parser returned. *)
Definition field {R A : Type} (parsed : option R) (f : R -> A) : option A :=
  match parsed with
  | Some r => Some (f r)
  | None => None
  end.

Definition field_opt {R A : Type} (parsed : option R) (f : R -> option A)
  : option A :=
  match parsed with
  | Some r => f r
  | None => None
  end.

(** [parsed.get("raw_data", {})]. *)
Definition raw_or_empty {R : Type} (parsed : option R) (f : R -> pyval)
  : pyval :=
  match parsed with
  | Some r => f r
  | None => PDict []
  end.

Section Service.

Variable loads : string -> res pyval.
Variable devices : string -> Z -> MinerClient.device.
Variable now : string.

(** The body of the outer [try] of [poll_miner]: the value returned and the
    database afterwards. *)
Definition poll_miner_body (db : database) (miner : Miner)
  : res (bool * database) :=
  let client := devices (ip_address miner) (port miner) in
  all_data <- await (MinerClient.get_all_data loads now client) ;;
  if negb (truthy all_data) then Ret (false, db) else
  summary <- py_get all_data "summary" (PDict []) ;;
  stats <- py_get all_data "stats" (PDict []) ;;
  summary_parsed <- MinerClient.parse_summary_data summary ;;
  stats_parsed <- MinerClient.parse_stats_data stats ;;
  match find (fun m => id m =? id miner) (miners db) with
  | None => Ret (false, db)
  | Some db_miner =>
      let row :=
        {| miner_id := id db_miner;
           hash_rate := field summary_parsed MinerClient.hash_rate;
           accepted_shares := field summary_parsed MinerClient.accepted_shares;
           rejected_shares := field summary_parsed MinerClient.rejected_shares;
           pool_switches := field summary_parsed MinerClient.pool_switches;
           temperature := field_opt stats_parsed MinerClient.temperature;
           fan_speed := field_opt stats_parsed MinerClient.fan_speed;
           power_consumption :=
             field_opt stats_parsed MinerClient.power_consumption;
           summary_data := raw_or_empty summary_parsed MinerClient.raw_data;
           stats_data :=
             raw_or_empty stats_parsed MinerClient.stats_raw_data |} in
      Ret (true, add_stats db row)
  end.

(** [poll_miner]: any exception of the body is logged and turned into
    [False]; nothing was committed then. *)
Definition poll_miner (db : database) (miner : Miner) : bool * database :=
  match poll_miner_body db miner with
  | Ret r => r
  | Raise _ => (false, db)
  end.

(** The tasks of one cycle, run here one after the other in the order of
    the query; each commits through a session of its own. *)
Fixpoint gather (db : database) (tasks : list Miner)
  : list bool * database :=
  match tasks with
  | [] => ([], db)
  | miner :: rest =>
      let (r, db1) := poll_miner db miner in
      let (rs, db2) := gather db1 rest in
      (r :: rs, db2)
  end.

(** What a cycle logs as its outcome. *)
Record cycle_report : Type := {
  successful : Z;
  failed : Z
}.

(** [poll_all_miners]: the logged counts ([None] when there is no active
    miner and the function returns at once) and the database afterwards. *)
Definition poll_all_miners (db : database)
  : option cycle_report * database :=
  match filter is_active (miners db) with
  | [] => (None, db)
  | active =>
      let (results, db1) := gather db active in
      let successful := Z.of_nat (List.length (filter (fun r => r) results)) in
      (Some {| successful := successful;
               failed := Z.of_nat (List.length results) - successful |},
       db1)
  end.

End Service.

End Monitoring.

(* ================================================================== *)
(** * Vocabulary of the properties, and sample inputs                  *)
(* ================================================================== *)

Module Samples.

(** The two wire shapes of a response that carries the data object [d]. *)
Definition wrapped (key : string) (d : list (string * pyval)) : pyval :=
  PDict [(key, PList [PDict d])].

Definition bare (key : string) (d : list (string * pyval)) : pyval :=
  PDict [(key, PDict d)].

(** A decoder that knows the complete texts of [table] and finds every
    other text incomplete. *)
Fixpoint loads_table (table : list (string * pyval)) (text : string)
  : res pyval :=
  match table with
  | [] => Raise JSONDecodeError
  | (t, v) :: rest =>
      if (t =? text)%string then Ret v else loads_table rest text
  end.

(** [quoted s] is [s] between double quotes. *)
Definition quoted (s : string) : string :=
  String dquote (String.append s (String dquote EmptyString)).

Definition summary_head : string :=
  String.append "{"
    (String.append (quoted "SUMMARY")
      (String.append ":[{" (String.append (quoted "GHS 5s") ":"))).

Definition summary_tail : string :=
  String.append (quoted "1234.5") "}]}".

Definition summary_text : string := String.append summary_head summary_tail.

(** The data object of a summary with the short-window hash rate of the
    specification's example, next to a long-run average. *)
Definition summary_object : list (string * pyval) :=
  [("GHS 5s", PStr "1234.5"); ("GHS av", PFloat 1200.25);
   ("Accepted", PInt 4011); ("Rejected", PInt 12)].

Definition summary_value : pyval :=
  wrapped "SUMMARY" [("GHS 5s", PStr "1234.5")].

(** The temperature readings of the specification's example, as a list and
    as a text. *)
Definition temps_list : pyval := PList [PInt 55; PInt 60; PInt 58].
Definition temps_text : pyval := PStr "55 60 58".

Definition loads : string -> res pyval :=
  loads_table [(summary_text, summary_value)].

(** A device that answers every command with [summary_text], sent in two
    segments. *)
Definition answering : MinerClient.device :=
  fun _ =>
    {| MinerClient.on_connect := MinerClient.Done;
       MinerClient.on_sendall := MinerClient.Done;
       MinerClient.received :=
         [MinerClient.Chunk summary_head;
          MinerClient.Chunk summary_tail] |}.

(** A device that refuses every connection. *)
Definition refusing : MinerClient.device :=
  fun _ =>
    {| MinerClient.on_connect := MinerClient.Failed;
       MinerClient.on_sendall := MinerClient.Done;
       MinerClient.received := [] |}.

(** A device that accepts the connection and then stays silent. *)
Definition silent : MinerClient.device :=
  fun _ =>
    {| MinerClient.on_connect := MinerClient.Done;
       MinerClient.on_sendall := MinerClient.Done;
       MinerClient.received := [MinerClient.RecvTimeout] |}.

End Samples.

(** The bytes accumulated after [chunks] have been appended to [acc]. *)
Fixpoint buffer (acc : string) (chunks : list string) : string :=
  match chunks with
  | [] => acc
  | c :: t => buffer (String.append acc c) t
  end.

(** Every chunk is non-empty and no accumulated buffer decodes yet. *)
Fixpoint incomplete (loads : string -> res pyval) (acc : string)
  (chunks : list string) : Prop :=
  match chunks with
  | [] => True
  | c :: t =>
      c <> EmptyString /\
      loads (String.append acc c) = Raise JSONDecodeError /\
      incomplete loads (String.append acc c) t
  end.

(** How the reading ends without a further chunk: the peer closes, or
    [recv] times out. *)
Definition ends_reading (events : list MinerClient.recv_event) : Prop :=
  match events with
  | [] => True
  | MinerClient.Chunk c :: _ => c = EmptyString
  | MinerClient.RecvTimeout :: _ => True
  | MinerClient.RecvError :: _ => False
  end.


(** ** Telemetry *)




(** A reading that is not negative: a number at least zero, a text that
    does not open with a minus sign, a list of such readings. *)
Fixpoint nonneg_value (v : pyval) : bool :=
  match v with
  | PInt n => 0 <=? n
  | PFloat q => Qle_bool 0 q
  | PStr s =>
      match strip (list_ascii_of_string s) with
      | c :: _ => negb (code c =? 45)
      | [] => true
      end
  | PList l => forallb nonneg_value l
  | _ => true
  end.

(** No reading of the data object is negative. *)
Definition readings_nonneg (data : pyval) : bool :=
  match data with
  | PDict d => forallb (fun kv => nonneg_value (snd kv)) d
  | _ => true
  end.

(** Absent, or at least zero. *)
Definition absent_or_nonneg_Z (x : option Z) : Prop :=
  match x with
  | Some n => 0 <= n
  | None => True
  end.



(** ** Scanning *)

(** The addresses a scan probed: those of its [check_port] tasks. *)
Fixpoint probed (tasks : list NetworkScanner.task) : list string :=
  match tasks with
  | [] => []
  | NetworkScanner.CheckPort ip _ :: rest => ip :: probed rest
  | NetworkScanner.IdentifyMiner _ _ :: rest => probed rest
  end.

(** While the attempt at identification leaves no record behind without a
    reason. *)
Definition reason_attached (r : NetworkScanner.device_record) : Prop :=
  NetworkScanner.is_accessible r = false -> NetworkScanner.error r <> None.

Module World.

(** A network on which no port is open. *)
Definition closed (ip : string) (port : Z) : res Z := Ret 111.

(** A network on which every port is open. *)
Definition open (ip : string) (port : Z) : res Z := Ret 0.

Definition every (dev : MinerClient.device) (ip : string) (port : Z)
  : MinerClient.device := dev.

(** Futures complete in the order of submission. *)
Definition in_order (ips : list string) : list string := ips.

End World.


(** ** Polling *)

(** The row stored for a device from which nothing was read. *)
Definition empty_row (miner_id : Z) : Monitoring.MinerStats :=
  {| Monitoring.miner_id := miner_id;
     Monitoring.hash_rate := None;
     Monitoring.accepted_shares := None;
     Monitoring.rejected_shares := None;
     Monitoring.pool_switches := None;
     Monitoring.temperature := None;
     Monitoring.fan_speed := None;
     Monitoring.power_consumption := None;
     Monitoring.summary_data := PDict [];
     Monitoring.stats_data := PDict [] |}.

(** Every connection to the device is refused or times out. *)
Definition unreachable (dev : MinerClient.device) : Prop :=
  forall command : string,
    MinerClient.on_connect (dev command) <> MinerClient.Done.

Module Farm.

Definition first : Monitoring.Miner :=
  {| Monitoring.id := 1; Monitoring.ip_address := "10.0.0.1";
     Monitoring.port := 4028; Monitoring.is_active := true |}.

Definition second : Monitoring.Miner :=
  {| Monitoring.id := 2; Monitoring.ip_address := "10.0.0.2";
     Monitoring.port := 4028; Monitoring.is_active := true |}.

Definition db : Monitoring.database :=
  {| Monitoring.miners := [first; second]; Monitoring.miner_stats := [] |}.

(** The first device answers, the second refuses every connection. *)
Definition devices (ip : string) (port : Z) : MinerClient.device :=
  if (ip =? "10.0.0.2")%string then Samples.refusing else Samples.answering.

Definition now : string := "2024-01-01T00:00:00".

End Farm.

(* ================================================================== *)
(** * Further sample inputs                                            *)
(* ================================================================== *)

Module Cases.

(** A reply whose text holds a two-byte character, cut between the two
    bytes: the first segment alone is not UTF-8. *)
Definition split_head : string :=
  String "["%char (String Py.dquote (String (ascii_of_nat 195) EmptyString)).

Definition split_tail : string :=
  String (ascii_of_nat 169) (String Py.dquote (String "]"%char EmptyString)).

Definition split_value : pyval :=
  PList [PStr (String (ascii_of_nat 233) EmptyString)].

Definition loads_utf8 (text : string) : res pyval :=
  if (text =? split_head)%string then Raise UnicodeDecodeError
  else if (text =? String.append split_head split_tail)%string
       then Ret split_value
       else Raise JSONDecodeError.

Definition splitting : MinerClient.exchange :=
  {| MinerClient.on_connect := MinerClient.Done;
     MinerClient.on_sendall := MinerClient.Done;
     MinerClient.received :=
       [MinerClient.Chunk split_head; MinerClient.Chunk split_tail] |}.

(** A summary whose accepted-share counter is not a number. *)
Definition malformed_text : string :=
  String.append "{"
    (String.append (Samples.quoted "SUMMARY")
      (String.append ":[{"
        (String.append (Samples.quoted "Accepted")
          (String.append ":" (String.append (Samples.quoted "n/a") "}]}"))))).

Definition malformed_value : pyval :=
  Samples.wrapped "SUMMARY" [("Accepted", PStr "n/a")].

Definition loads_malformed : string -> res pyval :=
  Samples.loads_table [(malformed_text, malformed_value)].

Definition malformed : MinerClient.device :=
  fun _ =>
    {| MinerClient.on_connect := MinerClient.Done;
       MinerClient.on_sendall := MinerClient.Done;
       MinerClient.received := [MinerClient.Chunk malformed_text] |}.

(** One address, one device. *)
Definition everywhere (dev : MinerClient.device) (ip : string) (port : Z)
  : MinerClient.device := dev.

End Cases.



(* ================================================================== *)
(** * miner_models.py                                                  *)
(* ================================================================== *)

Module MinerModels.

Record entry : Type := {
  name : string;
  models : list string
}.

Definition MINER_MANUFACTURERS : list (string * entry) :=
  [("Whatsminer",
    {| name := "Whatsminer";
       models := ["M10"; "M20"; "M21"; "M30"; "M31"; "M50"; "M53"; "M56";
                  "M60"; "M63"] |});
   ("AntMiner",
    {| name := "AntMiner";
       models := ["S9"; "S9i"; "S9j"; "S11"; "S15"; "S17"; "S17 Pro";
                  "S17+"; "S17e"; "S19"; "S19 Pro"; "S19j"; "S19j Pro";
                  "S19k Pro"; "S21"; "S21 Pro"; "T9"; "T9+"; "T15"; "T17";
                  "T17+"; "T19"; "T21"; "L3+"; "L7"; "E9 Pro"] |});
   ("Avalon",
    {| name := "Avalon";
       models := ["Miner 721"; "Miner 741"; "Miner 761"; "Miner 821";
                  "Miner 841"; "Miner 851"; "Miner 921"; "Miner 1026";
                  "Miner 1047"; "Miner 1066"; "Miner 1126 Pro";
                  "Miner 1166 Pro"; "Miner 1246"; "Miner 1266"] |});
   ("Elhapex",
    {| name := "Elhapex";
       models := ["E10"; "E11"; "E12"; "E20"; "E21"; "E30"; "E50"] |})].

Fixpoint lookup (k : string) (table : list (string * entry)) : option entry :=
  match table with
  | [] => None
  | (k', e) :: rest => if (k' =? k)%string then Some e else lookup k rest
  end.

Definition get_manufacturers : list string := map fst MINER_MANUFACTURERS.

Definition is_valid_manufacturer (manufacturer : string) : bool :=
  match lookup manufacturer MINER_MANUFACTURERS with
  | Some _ => true
  | None => false
  end.

Definition get_models_by_manufacturer (manufacturer : string) : list string :=
  match lookup manufacturer MINER_MANUFACTURERS with
  | Some e => models e
  | None => []
  end.

Definition is_valid_model (manufacturer model : string) : bool :=
  if negb (is_valid_manufacturer manufacturer) then false
  else existsb (fun m => (m =? model)%string)
         (get_models_by_manufacturer manufacturer).

End MinerModels.

(* ================================================================== *)
(** * agent/agent.py: the registry of discovered miners                *)
(* ================================================================== *)

Module AgentRegistry.

(** An entry of [discovered_miners]; [last_seen] is the time of the scan
    that stored it. *)
Record miner_entry : Type := {
  ip_address : string;
  port : Z;
  manufacturer : option string;
  model : option string;
  name : string;
  last_seen : Z
}.

(** [discovered_miners]: a dict from IP to entry, in insertion order. *)
Definition registry : Type := list (string * miner_entry).

Fixpoint lookup (ip : string) (r : registry) : option miner_entry :=
  match r with
  | [] => None
  | (k, e) :: rest => if (k =? ip)%string then Some e else lookup ip rest
  end.

(** [discovered_miners[ip] = e]: a known key keeps its place. *)
Fixpoint store (ip : string) (e : miner_entry) (r : registry) : registry :=
  match r with
  | [] => [(ip, e)]
  | (k, e') :: rest =>
      if (k =? ip)%string then (ip, e) :: rest
      else (k, e') :: store ip e rest
  end.

(** The text of a value that is a [str] or [None] inside an f-string. *)
Definition text_of (s : option string) : string :=
  match s with
  | Some t => t
  | None => "None"
  end.

(** The entry built from a record of the scan, which always holds the keys
    ["port"] and ["manufacturer"]. *)
Definition entry_of (now : Z) (miner : NetworkScanner.device_record)
  : miner_entry :=
  {| ip_address := NetworkScanner.ip_address miner;
     port := NetworkScanner.port miner;
     manufacturer := NetworkScanner.manufacturer miner;
     model := NetworkScanner.model miner;
     name := String.append (text_of (NetworkScanner.manufacturer miner))
               (String.append "-" (NetworkScanner.ip_address miner));
     last_seen := now |}.

(** The loop over the records of a scan. *)
Fixpoint update (now : Z) (discovered : list NetworkScanner.device_record)
  (r : registry) : registry :=
  match discovered with
  | [] => r
  | miner :: rest =>
      update now rest
        (if NetworkScanner.is_accessible miner
         then store (NetworkScanner.ip_address miner) (entry_of now miner) r
         else r)
  end.

(** [scan_network] from the outcome of the synchronous scan on: the list
    returned and the registry afterwards. *)
Definition record_scan (now : Z)
  (scan : res (list NetworkScanner.device_record)) (r : registry)
  : list miner_entry * registry :=
  match scan with
  | Raise _ => ([], r)
  | Ret discovered =>
      let r' := update now discovered r in (map snd r', r')
  end.

Section Agent.

Variable loads : string -> res pyval.
Variable ip_network : string -> option IPAddress.IPv4Network.
Variable connect_ex : string -> Z -> res Z.
Variable devices : string -> Z -> MinerClient.device.
Variable probes_completed : list string -> list string.
Variable identifications_completed : list string -> list string.

(** [scan_network]: the synchronous scan runs on port 4028. *)
Definition scan_network (network_cidr : string) (now : Z) (r : registry)
  : list miner_entry * registry :=
  record_scan now
    (snd (NetworkScanner.scan_network loads ip_network connect_ex devices
            probes_completed identifications_completed network_cidr 4028))
    r.

End Agent.


End AgentRegistry.

(* ================================================================== *)
(** * app/main.py: adding discovered miners, synchronising an agent    *)
(* ================================================================== *)

Module Api.

Inductive UserRole : Type :=
| ADMIN
| ACCOUNTANT
| CLIENT.

(** An [HTTPException], by its status code. *)
Inductive http_error : Type :=
| Forbidden (detail : string)       (* 403 *)
| NotFound (detail : string).       (* 404 *)

(** A row of the [miners] table (the time stamps are left out); [tags] is
    the list that the stored JSON text encodes. *)
Record Miner : Type := {
  id : Z;
  name : string;
  ip_address : string;
  port : Z;
  manufacturer : option string;
  model : option string;
  pool_id : option Z;
  container_id : option Z;
  tags : option (list string);
  is_active : bool;
  is_auto_discovered : bool
}.

(** A row of the [miner_stats] table (its own key is left out); the two
    data columns hold the dict that the stored JSON text encodes. *)
Record MinerStats : Type := {
  miner_id : Z;
  timestamp : Z;
  hash_rate : option Q;
  accepted_shares : option Z;
  rejected_shares : option Z;
  pool_switches : option Z;
  temperature : option Q;
  fan_speed : option Z;
  power_consumption : option Q;
  summary_data : option (list (string * pyval));
  stats_data : option (list (string * pyval))
}.

Record database : Type := {
  miners : list Miner;
  miner_stats : list MinerStats;
  pools : list Z;            (* the keys of the pools *)
  containers : list Z        (* the keys of the containers *)
}.

Record report : Type := {
  added : Z;
  skipped : Z;
  added_ips : list string;
  skipped_details : list (string * string)
}.

(** [s or default] for an optional text. *)
Definition text_or (s : option string) (default : string) : string :=
  match s with
  | Some t => if (t =? EmptyString)%string then default else t
  | None => default
  end.

(** The address of a row, by which the endpoints look miners up. *)
Definition address (m : Miner) : string * Z := (ip_address m, port m).

(** [db.query(Miner).filter(ip_address == ip, port == port).first()]. *)
Definition existing (rows : list Miner) (ip : string) (port : Z)
  : option Miner :=
  find (fun m => (ip_address m =? ip)%string && (Api.port m =? port)) rows.

(** The miner that [add_discovered_miners] hands to [db.add]; the database
    gives it its key when the session is committed. *)
Definition new_miner (pool_id container_id : option Z)
  (miner_data : NetworkScanner.device_record) (key : Z) : Miner :=
  {| id := key;
     name :=
       String.append
         (text_or (NetworkScanner.manufacturer miner_data) "Unknown")
         (String.append "-" (NetworkScanner.ip_address miner_data));
     ip_address := NetworkScanner.ip_address miner_data;
     port := NetworkScanner.port miner_data;
     manufacturer := NetworkScanner.manufacturer miner_data;
     model := NetworkScanner.model miner_data;
     pool_id := pool_id;
     container_id := container_id;
     tags := None;
     is_active := true;
     is_auto_discovered := true |}.

(** The loop: the miners handed to [db.add], the addresses added and the
    entries skipped, each in the order of the request.  The session is made
    with [autoflush=False] and committed after the loop, so the query sees
    the rows of the table as they were before the request. *)
Fixpoint add_each (rows : list Miner) (pool_id container_id : option Z)
  (miners : list NetworkScanner.device_record)
  : list (Z -> Miner) * list string * list (string * string) :=
  match miners with
  | [] => ([], [], [])
  | miner_data :: rest =>
      let '(new, added, skipped) :=
        add_each rows pool_id container_id rest in
      let ip := NetworkScanner.ip_address miner_data in
      if negb (NetworkScanner.is_accessible miner_data) then
        (new, added,
         (ip, text_or (NetworkScanner.error miner_data) "Not accessible")
         :: skipped)
      else
        match existing rows ip (NetworkScanner.port miner_data) with
        | Some _ => (new, added, (ip, "Already exists") :: skipped)
        | None =>
            (new_miner pool_id container_id miner_data :: new,
             ip :: added, skipped)
        end
  end.

Definition known (keys : list Z) (key : option Z) : bool :=
  match key with
  | Some k => existsb (Z.eqb k) keys
  | None => true
  end.

(** The entries of a request that the loop adds. *)
Definition addable (rows : list Miner)
  (miner_data : NetworkScanner.device_record) : bool :=
  NetworkScanner.is_accessible miner_data
  && match existing rows (NetworkScanner.ip_address miner_data)
             (NetworkScanner.port miner_data) with
     | Some _ => false
     | None => true
     end.

(** ** The requests of an agent *)

Module AgentMinerData.
Record t : Type := {
  ip_address : string;
  port : Z;
  manufacturer : option string;
  model : option string;
  name : option string;
  container_id : option Z;
  pool_id : option Z;
  tags : option (list string)
}.
End AgentMinerData.

Module AgentMinerStats.
Record t : Type := {
  ip_address : string;
  port : Z;
  timestamp : Z;
  hash_rate : option Q;
  accepted_shares : option Z;
  rejected_shares : option Z;
  pool_switches : option Z;
  temperature : option Q;
  fan_speed : option Z;
  power_consumption : option Q;
  summary_data : option (list (string * pyval));
  stats_data : option (list (string * pyval))
}.
End AgentMinerStats.

Record AgentSyncRequest : Type := {
  discovered_miners : list AgentMinerData.t;
  sync_miner_stats : list AgentMinerStats.t
}.

Record AgentSyncResponse : Type := {
  miners_added : Z;
  miners_updated : Z;
  stats_added : Z;
  errors : list string
}.

(** [new if new else old], for a text, a key and a list. *)
Definition text_if (new old : option string) : option string :=
  match new with
  | Some t => if (t =? EmptyString)%string then old else Some t
  | None => old
  end.

Definition key_if (new old : option Z) : option Z :=
  match new with
  | Some k => if k =? 0 then old else Some k
  | None => old
  end.

Definition tags_if (new old : option (list string))
  : option (list string) :=
  match new with
  | Some (t :: l) => Some (t :: l)
  | _ => old
  end.

(** The existing miner after the update. *)
Definition updated (m : Miner) (miner_data : AgentMinerData.t) : Miner :=
  {| id := id m;
     name := text_or (AgentMinerData.name miner_data) (name m);
     ip_address := ip_address m;
     port := port m;
     manufacturer :=
       text_if (AgentMinerData.manufacturer miner_data) (manufacturer m);
     model := text_if (AgentMinerData.model miner_data) (model m);
     pool_id := key_if (AgentMinerData.pool_id miner_data) (pool_id m);
     container_id :=
       key_if (AgentMinerData.container_id miner_data) (container_id m);
     tags := tags_if (AgentMinerData.tags miner_data) (tags m);
     is_active := true;
     is_auto_discovered := is_auto_discovered m |}.

(** [site_id and None]. *)
Definition and_none (site_id : option Z) : option Z :=
  match site_id with
  | Some k => if k =? 0 then Some k else None
  | None => None
  end.

(** The miner created for an address that the table does not hold. *)
Definition created (site_id : option Z) (miner_data : AgentMinerData.t)
  (key : Z) : Miner :=
  {| id := key;
     name :=
       text_or (AgentMinerData.name miner_data)
         (String.append
            (text_or (AgentMinerData.manufacturer miner_data) "Unknown")
            (String.append "-" (AgentMinerData.ip_address miner_data)));
     ip_address := AgentMinerData.ip_address miner_data;
     port := AgentMinerData.port miner_data;
     manufacturer := AgentMinerData.manufacturer miner_data;
     model := AgentMinerData.model miner_data;
     pool_id := AgentMinerData.pool_id miner_data;
     container_id :=
       key_if (AgentMinerData.container_id miner_data) (and_none site_id);
     tags := tags_if (AgentMinerData.tags miner_data) None;
     is_active := true;
     is_auto_discovered := true |}.

(** The first row at the address, replaced by its update. *)
Fixpoint update_first (rows : list Miner) (miner_data : AgentMinerData.t)
  : list Miner :=
  match rows with
  | [] => []
  | m :: rest =>
      if (ip_address m =? AgentMinerData.ip_address miner_data)%string
         && (port m =? AgentMinerData.port miner_data)
      then updated m miner_data :: rest
      else m :: update_first rest miner_data
  end.

(** [data if data else None] for a dict. *)
Definition dict_if (data : option (list (string * pyval)))
  : option (list (string * pyval)) :=
  match data with
  | Some (kv :: d) => Some (kv :: d)
  | _ => None
  end.

Definition stats_row (m : Miner) (stats_data : AgentMinerStats.t)
  : MinerStats :=
  {| miner_id := id m;
     timestamp := AgentMinerStats.timestamp stats_data;
     hash_rate := AgentMinerStats.hash_rate stats_data;
     accepted_shares := AgentMinerStats.accepted_shares stats_data;
     rejected_shares := AgentMinerStats.rejected_shares stats_data;
     pool_switches := AgentMinerStats.pool_switches stats_data;
     temperature := AgentMinerStats.temperature stats_data;
     fan_speed := AgentMinerStats.fan_speed stats_data;
     power_consumption := AgentMinerStats.power_consumption stats_data;
     summary_data := dict_if (AgentMinerStats.summary_data stats_data);
     stats_data := dict_if (AgentMinerStats.stats_data stats_data) |}.

Definition not_found (stats_data : AgentMinerStats.t) : string :=
  String.append "Miner "
    (String.append (AgentMinerStats.ip_address stats_data)
       (String.append ":"
          (String.append (str_of_Z (AgentMinerStats.port stats_data))
             " not found, skipping stats"))).

(** The second loop of [sync_agent_data], which commits after each entry:
    the statistics, the count and the errors afterwards. *)
Fixpoint sync_stats (rows : list Miner) (data : list AgentMinerStats.t)
  (stats : list MinerStats) (stats_added : Z) (errors : list string)
  : list MinerStats * Z * list string :=
  match data with
  | [] => (stats, stats_added, errors)
  | stats_data :: rest =>
      match existing rows (AgentMinerStats.ip_address stats_data)
              (AgentMinerStats.port stats_data) with
      | None =>
          sync_stats rows rest stats stats_added
            (errors ++ [not_found stats_data])
      | Some m =>
          sync_stats rows rest (stats ++ [stats_row m stats_data])
            (stats_added + 1) errors
      end
  end.

Section Keys.

(** The key that the database gives to a row inserted into the table. *)
Variable new_key : list Miner -> Z.

(** [db.commit()] of the miners handed to [db.add], in their order. *)
Fixpoint flush (rows : list Miner) (pending : list (Z -> Miner))
  : list Miner :=
  match pending with
  | [] => rows
  | make :: rest => flush (rows ++ [make (new_key rows)]) rest
  end.

Definition add_discovered_miners (role : UserRole)
  (miners : list NetworkScanner.device_record)
  (pool_id container_id : option Z) (db : database)
  : http_error + report * database :=
  match role with
  | ADMIN =>
      if negb (known (pools db) pool_id) then inl (NotFound "Pool not found")
      else if negb (known (containers db) container_id)
      then inl (NotFound "Container not found")
      else
        let '(new, added, skipped) :=
          add_each (Api.miners db) pool_id container_id miners in
        inr ({| added := Z.of_nat (List.length added);
                skipped := Z.of_nat (List.length skipped);
                added_ips := added;
                skipped_details := skipped |},
             {| miners := flush (Api.miners db) new;
                miner_stats := Api.miner_stats db;
                pools := pools db;
                containers := containers db |})
  | _ => inl (Forbidden "Only administrators can add discovered miners")
  end.

(** The first loop of [sync_agent_data], which commits after each entry:
    the table and the two counts afterwards.  The commits are taken to
    succeed, as they do on the SQLite engine of the configuration, which
    checks no foreign key; a query gives the first row in the order of
    insertion. *)
Fixpoint sync_miners (site_id : option Z) (data : list AgentMinerData.t)
  (rows : list Miner) (miners_added miners_updated : Z)
  : list Miner * Z * Z :=
  match data with
  | [] => (rows, miners_added, miners_updated)
  | miner_data :: rest =>
      match existing rows (AgentMinerData.ip_address miner_data)
              (AgentMinerData.port miner_data) with
      | Some _ =>
          sync_miners site_id rest (update_first rows miner_data)
            miners_added (miners_updated + 1)
      | None =>
          sync_miners site_id rest
            (rows ++ [created site_id miner_data (new_key rows)])
            (miners_added + 1) miners_updated
      end
  end.

(** [sync_agent_data] for an agent of the site [site_id]. *)
Definition sync_agent_data (site_id : option Z) (sync_data : AgentSyncRequest)
  (db : database) : AgentSyncResponse * database :=
  let '(rows, miners_added, miners_updated) :=
    sync_miners site_id (discovered_miners sync_data) (Api.miners db) 0 0 in
  let '(stats, stats_added, errors) :=
    sync_stats rows (sync_miner_stats sync_data) (Api.miner_stats db) 0 [] in
  ({| miners_added := miners_added;
      miners_updated := miners_updated;
      stats_added := stats_added;
      errors := errors |},
   {| miners := rows;
      miner_stats := stats;
      pools := pools db;
      containers := containers db |}).

End Keys.

(** ** Addresses, to state what the endpoints do *)





End Api.


(** Records of a scan and tables to try the registry and the API on. *)
Module Site.

Definition found (ip : string) (manufacturer : string)
  : NetworkScanner.device_record :=
  {| NetworkScanner.ip_address := ip;
     NetworkScanner.port := 4028;
     NetworkScanner.manufacturer := Some manufacturer;
     NetworkScanner.model := None;
     NetworkScanner.is_accessible := true;
     NetworkScanner.error := None |}.

Definition silent (ip : string) : NetworkScanner.device_record :=
  {| NetworkScanner.ip_address := ip;
     NetworkScanner.port := 4028;
     NetworkScanner.manufacturer := None;
     NetworkScanner.model := None;
     NetworkScanner.is_accessible := false;
     NetworkScanner.error := Some "Could not identify miner type" |}.

(** A registry that knows one miner from an earlier scan. *)
Definition known : AgentRegistry.registry :=
  [("10.0.0.9", AgentRegistry.entry_of 100 (found "10.0.0.9" "Unknown"))].

(** A table that holds one miner. *)
Definition table : Api.database :=
  {| Api.miners :=
       [Api.new_miner None None (found "10.0.0.1" "Whatsminer") 1];
     Api.miner_stats := [];
     Api.pools := [1];
     Api.containers := [] |}.

(** Keys handed out in sequence. *)
Definition next_key (rows : list Api.Miner) : Z :=
  1 + Z.of_nat (List.length rows).

(** A request that names the miner of the table, a new one twice, and one
    that was not identified. *)
Definition request : list NetworkScanner.device_record :=
  [found "10.0.0.1" "Whatsminer"; found "10.0.0.7" "Unknown";
   found "10.0.0.7" "Unknown"; silent "10.0.0.8"].

(** What an agent announces: the miner of the table with its model, and a
    new one twice. *)
Definition seen (ip : string) (model : option string)
  : Api.AgentMinerData.t :=
  {| Api.AgentMinerData.ip_address := ip;
     Api.AgentMinerData.port := 4028;
     Api.AgentMinerData.manufacturer := Some "Whatsminer";
     Api.AgentMinerData.model := model;
     Api.AgentMinerData.name := None;
     Api.AgentMinerData.container_id := None;
     Api.AgentMinerData.pool_id := None;
     Api.AgentMinerData.tags := None |}.

Definition measured (ip : string) (hash_rate : Q)
  : Api.AgentMinerStats.t :=
  {| Api.AgentMinerStats.ip_address := ip;
     Api.AgentMinerStats.port := 4028;
     Api.AgentMinerStats.timestamp := 100;
     Api.AgentMinerStats.hash_rate := Some hash_rate;
     Api.AgentMinerStats.accepted_shares := None;
     Api.AgentMinerStats.rejected_shares := None;
     Api.AgentMinerStats.pool_switches := None;
     Api.AgentMinerStats.temperature := None;
     Api.AgentMinerStats.fan_speed := None;
     Api.AgentMinerStats.power_consumption := None;
     Api.AgentMinerStats.summary_data := None;
     Api.AgentMinerStats.stats_data := None |}.

Definition sync_request : Api.AgentSyncRequest :=
  {| Api.discovered_miners :=
       [seen "10.0.0.1" (Some "M50"); seen "10.0.0.7" None;
        seen "10.0.0.7" (Some "M30")];
     Api.sync_miner_stats :=
       [measured "10.0.0.7" 95; measured "10.0.0.99" 80] |}.

(** A table with an inactive miner, and one that holds a second, inactive
    row at the address of the first. *)
Definition retired (m : Api.Miner) (key : Z) : Api.Miner :=
  {| Api.id := key;
     Api.name := Api.name m;
     Api.ip_address := Api.ip_address m;
     Api.port := Api.port m;
     Api.manufacturer := Api.manufacturer m;
     Api.model := Api.model m;
     Api.pool_id := Api.pool_id m;
     Api.container_id := Api.container_id m;
     Api.tags := Api.tags m;
     Api.is_active := false;
     Api.is_auto_discovered := Api.is_auto_discovered m |}.


Definition doubled : Api.database :=
  {| Api.miners :=
       Api.miners table
       ++ [retired
             (Api.new_miner None None (found "10.0.0.1" "Whatsminer") 2) 2];
     Api.miner_stats := [];
     Api.pools := [];
     Api.containers := [] |}.

End Site.


(* ================================================================== *)
(** * The protocol client                                              *)
(* ================================================================== *)

Section ClientFacts.

Import MinerClient.

Variable loads : string -> res pyval.

Lemma read_loop_chunks (chunks : list string) :
  forall acc events,
    incomplete loads acc chunks ->
    read_loop loads (map Chunk chunks ++ events) acc
    = read_loop loads events (buffer acc chunks).
Proof.
  induction chunks as [|c t IH]; intros acc events H; simpl in *.
  - reflexivity.
  - destruct H as (Hc & Hl & Ht).
    apply String.eqb_neq in Hc. rewrite Hc, Hl.
    now apply IH.
Qed.

Lemma buffer_undecoded (chunks : list string) :
  forall acc,
    incomplete loads acc chunks ->
    acc = EmptyString \/ loads acc = Raise JSONDecodeError ->
    buffer acc chunks = EmptyString \/
    loads (buffer acc chunks) = Raise JSONDecodeError.
Proof.
  induction chunks as [|c t IH]; intros acc H Hacc; simpl in *.
  - exact Hacc.
  - destruct H as (_ & Hl & Ht). apply IH; auto.
Qed.

Lemma after_loop_undecoded (response : string) :
  response = EmptyString \/ loads response = Raise JSONDecodeError ->
  after_loop loads response = Ret PNone.
Proof.
  unfold after_loop. intros [-> | H].
  - reflexivity.
  - rewrite H. now destruct (negb _).
Qed.

Lemma read_loop_gives_up (events : list recv_event) (response : string) :
  ends_reading events ->
  response = EmptyString \/ loads response = Raise JSONDecodeError ->
  read_loop loads events response = Ret PNone.
Proof.
  intros He Hr. pose proof (after_loop_undecoded _ Hr) as Ha.
  destruct events as [|[c| |] rest]; simpl in *.
  - exact Ha.
  - subst c. exact Ha.
  - destruct Hr as [-> | H]; [exact Ha|].
    rewrite H. now destruct (negb _).
  - contradiction.
Qed.

Lemma send_command_connected (x : exchange) (command : pyval) :
  on_connect x = Done -> serializable command = true ->
  on_sendall x = Done ->
  send_command_body loads x command = read_loop loads (received x) EmptyString.
Proof.
  unfold send_command_body, json_dumps. now intros -> -> ->.
Qed.

End ClientFacts.

(** C10.  Whatever the exchange does and whatever the command is,
    [_send_command] returns and never raises.  It returns [None] when the
    connection is refused or times out, when the read times out on an empty
    buffer, and when the reading ends on a buffer that does not decode; it
    returns the decoded value as soon as the accumulated buffer decodes.  All
    failures give the same [None]. *)
Theorem send_command_swallows_failures :
  forall (loads : string -> res pyval) (x : MinerClient.exchange)
         (command : pyval),
    (exists data, MinerClient._send_command loads x command = Ret data) /\
    (MinerClient.on_connect x <> MinerClient.Done ->
     MinerClient._send_command loads x command = Ret PNone) /\
    (forall chunks rest,
        MinerClient.on_connect x = MinerClient.Done ->
        MinerClient.serializable command = true ->
        MinerClient.on_sendall x = MinerClient.Done ->
        MinerClient.received x = map MinerClient.Chunk chunks ++ rest ->
        incomplete loads EmptyString chunks ->
        ends_reading rest ->
        MinerClient._send_command loads x command = Ret PNone) /\
    (forall chunks c rest data,
        MinerClient.on_connect x = MinerClient.Done ->
        MinerClient.serializable command = true ->
        MinerClient.on_sendall x = MinerClient.Done ->
        MinerClient.received x
        = map MinerClient.Chunk chunks ++ MinerClient.Chunk c :: rest ->
        incomplete loads EmptyString chunks ->
        c <> EmptyString ->
        loads (String.append (buffer EmptyString chunks) c) = Ret data ->
        MinerClient._send_command loads x command = Ret data).
Proof.
  intros loads x command. unfold MinerClient._send_command.
  split; [|split; [|split]].
  - destruct (MinerClient.send_command_body loads x command) as [d|[]];
      eauto.
  - intros Hc. unfold MinerClient.send_command_body.
    destruct (MinerClient.on_connect x); [contradiction| |]; reflexivity.
  - intros chunks rest Hc Hs Hw Hr Hi He.
    rewrite (send_command_connected loads x command Hc Hs Hw), Hr.
    rewrite (read_loop_chunks loads chunks _ _ Hi).
    rewrite read_loop_gives_up; auto.
    apply buffer_undecoded; auto.
  - intros chunks c rest data Hc Hs Hw Hr Hi Hne Hd.
    rewrite (send_command_connected loads x command Hc Hs Hw), Hr.
    rewrite (read_loop_chunks loads chunks _ _ Hi). simpl.
    apply String.eqb_neq in Hne. now rewrite Hne, Hd.
Qed.

Lemma send_command_swallows_failures_witness :
  MinerClient._send_command Samples.loads (Samples.answering "summary")
    (MinerClient.command_of "summary") = Ret Samples.summary_value /\
  MinerClient._send_command Samples.loads (Samples.refusing "summary")
    (MinerClient.command_of "summary") = Ret PNone /\
  MinerClient._send_command Samples.loads (Samples.silent "summary")
    (MinerClient.command_of "summary") = Ret PNone.
Proof.
  split; [|split].
  - apply (proj2 (proj2 (proj2
             (send_command_swallows_failures Samples.loads
                (Samples.answering "summary")
                (MinerClient.command_of "summary"))))
             [Samples.summary_head] Samples.summary_tail []);
      try reflexivity; try discriminate.
    simpl. repeat split; try discriminate; reflexivity.
  - apply (proj1 (proj2
             (send_command_swallows_failures Samples.loads
                (Samples.refusing "summary")
                (MinerClient.command_of "summary")))).
    discriminate.
  - apply (proj1 (proj2 (proj2
             (send_command_swallows_failures Samples.loads
                (Samples.silent "summary")
                (MinerClient.command_of "summary"))))
             [] [MinerClient.RecvTimeout]);
      try reflexivity; exact I.
Defined.

(* ================================================================== *)
(** * The telemetry parsers                                            *)
(* ================================================================== *)

Section ParserFacts.

Import MinerClient Samples.


(** On the bare shape it works on an empty object instead. *)
Lemma parse_summary_data_bare (d : list (string * pyval)) :
  parse_summary_data (bare "SUMMARY" d)
  = (r <- summary_record (PDict []) ;; Ret (Some r)).
Proof. reflexivity. Qed.


(** A bare statistics object is subscripted with [-1], which it does not
    hold. *)
Lemma parse_stats_data_bare (d : list (string * pyval)) :
  d <> [] -> parse_stats_data (bare "STATS" d) = Raise KeyError.
Proof. destruct d; [congruence | reflexivity]. Qed.


(** The agent divides the same reading by 1000. *)
Lemma agent_hash_rate_of_short (d : list (string * pyval)) (v : pyval) (q : Q) :
  dict_get "GHS 5s" d = Some v ->
  py_float v = Ret q ->
  Agent.hash_rate_of (PDict d) = Ret (Some (q / 1000)%Q).
Proof.
  intros Hd Hq. unfold Agent.hash_rate_of, getitem_key. simpl.
  rewrite Hd. simpl. rewrite Hq. reflexivity.
Qed.

(** The agent reads the data object out of either shape. *)
Lemma agent_payload_either_shape (key : string) (d : list (string * pyval)) :
  d <> [] ->
  Agent.payload key (wrapped key d) = Ret (PDict d) /\
  Agent.payload key (bare key d) = Ret (PDict d).
Proof.
  intros Hd. unfold Agent.payload, wrapped, bare. simpl.
  rewrite String.eqb_refl. simpl.
  destruct d; [congruence | now split].
Qed.

Lemma agent_reads_either_shape (d d' : list (string * pyval)) :
  d <> [] -> d' <> [] ->
  Agent.poll_miner_from (wrapped "SUMMARY" d) (wrapped "STATS" d')
  = Agent.poll_miner_from (bare "SUMMARY" d) (bare "STATS" d').
Proof.
  intros Hd Hd'. unfold Agent.poll_miner_from, Agent.poll_miner_body.
  destruct (agent_payload_either_shape "SUMMARY" d Hd) as [-> ->].
  destruct (agent_payload_either_shape "STATS" d' Hd') as [-> ->].
  reflexivity.
Qed.

(** Handed the coroutine objects of the accessors, the agent finds no
    object to read and reports a sample without readings. *)
Lemma agent_poll_miner_reads_nothing (loads : string -> res pyval)
  (dev : device) :
  Agent.poll_miner loads dev
  = Some {| Agent.hash_rate := None;
            Agent.accepted_shares := PNone;
            Agent.rejected_shares := PNone;
            Agent.pool_switches := PNone;
            Agent.temperature := None;
            Agent.fan_speed := None;
            Agent.power_consumption := None;
            Agent.summary_data := PDict [];
            Agent.stats_data := PDict [] |}.
Proof. reflexivity. Qed.

End ParserFacts.

(** C1.  On the summary field ["GHS 5s": "1234.5"], [parse_summary_data]
    takes the short window although an average is reported too, but returns
    the reading as it is, 1234.5, not 1.2345; the agent's [poll_miner],
    handed the same response, returns 1.2345. *)
Theorem parse_summary_data_keeps_gigahashes :
  (exists r,
      MinerClient.parse_summary_data
        (Samples.wrapped "SUMMARY" Samples.summary_object) = Ret (Some r) /\
      (MinerClient.hash_rate r == 1234.5)%Q /\
      ~ (MinerClient.hash_rate r == 1.2345)%Q) /\
  (exists s,
      Agent.poll_miner_from
        (Samples.wrapped "SUMMARY" Samples.summary_object) PNone = Some s /\
      Agent.hash_rate s = Some 1.2345%Q).
Proof.
  split.
  - eexists. split; [reflexivity|]. simpl. split.
    + reflexivity.
    + intros H. vm_compute in H. discriminate.
  - eexists. split; reflexivity.
Qed.

(** C2.  [parse_stats_data] reads the list [[55, 60, 58]] as 60 and fails
    on the text ["55 60 58"] and on the single number 55; the agent's
    [poll_miner], handed such responses, reads the text and the single
    number and finds no temperature in the list.  Neither parser makes the
    two forms agree. *)
Theorem sensor_forms_disagree :
  (exists r,
      MinerClient.parse_stats_data
        (Samples.wrapped "STATS" [("temperature", Samples.temps_list)])
      = Ret (Some r) /\
      MinerClient.temperature r = Some 60%Q) /\
  MinerClient.parse_stats_data
    (Samples.wrapped "STATS" [("temperature", Samples.temps_text)])
  = Raise ValueError /\
  MinerClient.parse_stats_data
    (Samples.wrapped "STATS" [("temperature", PInt 55)])
  = Raise TypeError /\
  (exists s,
      Agent.poll_miner_from Samples.summary_value
        (Samples.wrapped "STATS" [("temp", Samples.temps_text)]) = Some s /\
      Agent.temperature s = Some 60) /\
  (exists s,
      Agent.poll_miner_from Samples.summary_value
        (Samples.wrapped "STATS" [("temp", PInt 55)]) = Some s /\
      Agent.temperature s = Some 55) /\
  (exists s,
      Agent.poll_miner_from Samples.summary_value
        (Samples.wrapped "STATS" [("temp", Samples.temps_list)]) = Some s /\
      Agent.temperature s = None).
Proof.
  repeat split; try reflexivity; eexists; split; reflexivity.
Qed.

(** C3.  Of one data object sent in the two shapes, [parse_summary_data]
    reads the fields of the wrapped one and reports the defaults, 0, for the
    bare one, and [parse_stats_data] raises on the bare one; the agent's
    [poll_miner], handed the responses, reads the same telemetry from
    both. *)
Theorem bare_object_not_read :
  (exists r b,
      MinerClient.parse_summary_data
        (Samples.wrapped "SUMMARY" Samples.summary_object) = Ret (Some r) /\
      MinerClient.parse_summary_data
        (Samples.bare "SUMMARY" Samples.summary_object) = Ret (Some b) /\
      MinerClient.accepted_shares r = 4011 /\
      MinerClient.accepted_shares b = 0 /\
      (MinerClient.hash_rate b == 0)%Q /\
      MinerClient.raw_data b = PDict []) /\
  MinerClient.parse_stats_data
    (Samples.bare "STATS" [("temperature", Samples.temps_list)])
  = Raise KeyError /\
  Agent.poll_miner_from (Samples.wrapped "SUMMARY" Samples.summary_object)
    (Samples.wrapped "STATS" [("temp", Samples.temps_text)])
  = Agent.poll_miner_from (Samples.bare "SUMMARY" Samples.summary_object)
      (Samples.bare "STATS" [("temp", Samples.temps_text)]).
Proof.
  split; [|split].
  - do 2 eexists. repeat split; reflexivity.
  - reflexivity.
  - reflexivity.
Qed.

(** ** Missing fields *)

Section SummaryFields.

Import MinerClient Samples.

Variable d : list (string * pyval).






End SummaryFields.




(** ** Sign of the parsed fields *)

Section Signs.

Import MinerClient.

Lemma span_decimal_all (cs : list ascii) :
  forallb is_decimal (fst (span_decimal cs)) = true.
Proof.
  induction cs as [|c t IH]; simpl; [reflexivity|].
  destruct (is_decimal c) eqn:Hc; [|reflexivity].
  destruct (span_decimal t) as [ds rest]. simpl in *. now rewrite Hc.
Qed.

Lemma fold_digits_nonneg (ds : list ascii) :
  forall acc,
    0 <= acc -> forallb is_decimal ds = true ->
    0 <= fold_left (fun a c => 10 * a + (code c - 48)) ds acc.
Proof.
  induction ds as [|c t IH]; intros acc Hacc Hall;
    cbn [fold_left forallb] in *; [exact Hacc|].
  apply andb_prop in Hall. destruct Hall as [Hc Ht].
  apply IH; [|exact Ht].
  unfold is_decimal in Hc. apply andb_prop in Hc. destruct Hc as [Hlo _].
  apply Z.leb_le in Hlo. lia.
Qed.

Lemma digits_value_nonneg (ds : list ascii) :
  forallb is_decimal ds = true -> 0 <= digits_value ds.
Proof. apply fold_digits_nonneg. lia. Qed.

Lemma take_sign_plain (cs : list ascii) :
  match cs with c :: _ => negb (code c =? 45) | [] => true end = true ->
  fst (take_sign cs) = false.
Proof.
  destruct cs as [|c t]; [reflexivity|].
  destruct c as [[] [] [] [] [] [] [] []]; simpl; intros H;
    first [reflexivity | discriminate H].
Qed.

Lemma int_of_str_nonneg (s : string) (n : Z) :
  nonneg_value (PStr s) = true -> int_of_str s = Some n -> 0 <= n.
Proof.
  unfold int_of_str. simpl. intros Hs.
  apply take_sign_plain in Hs.
  destruct (take_sign _) as [neg body]. simpl in Hs. subst neg.
  pose proof (span_decimal_all body) as Hall.
  destruct (span_decimal body) as [[|c ds] [|? ?]]; try discriminate.
  intros [= <-]. simpl in Hall. now apply digits_value_nonneg.
Qed.

Lemma float_of_str_nonneg (s : string) (q : Q) :
  nonneg_value (PStr s) = true -> float_of_str s = Some q -> (0 <= q)%Q.
Proof.
  unfold float_of_str. simpl. intros Hs.
  apply take_sign_plain in Hs.
  destruct (take_sign _) as [neg body]. simpl in Hs. subst neg.
  pose proof (span_decimal_all body) as Hip.
  destruct (span_decimal body) as [ip r1]. simpl in Hip.
  assert (Hfp : forall fp r2,
             match r1 with
             | "."%char :: t => span_decimal t
             | _ => ([], r1)
             end = (fp, r2) -> forallb is_decimal fp = true).
  { intros fp r2 E.
    assert (Hd : forall t, span_decimal t = (fp, r2) ->
                           forallb is_decimal fp = true).
    { intros t Et. pose proof (span_decimal_all t) as H.
      now rewrite Et in H. }
    destruct r1 as [|c t]; [now inversion E|].
    destruct c as [[] [] [] [] [] [] [] []];
      first [now inversion E | now apply (Hd t)]. }
  destruct (match r1 with "."%char :: t => span_decimal t | _ => ([], r1) end)
    as [fp r2].
  specialize (Hfp fp r2 eq_refl).
  destruct (ip ++ fp) as [|c ds] eqn:E; [discriminate|].
  destruct (exponent_of r2) as [[e [|? ?]]|]; try discriminate.
  intros [= <-]. simpl apply_sign.
  apply Qmult_le_0_compat.
  - replace 0%Q with (inject_Z 0) by reflexivity. rewrite <- Zle_Qle.
    apply digits_value_nonneg. rewrite <- E, forallb_app. now rewrite Hip, Hfp.
  - apply Qpower_0_le. discriminate.
Qed.


Lemma py_float_nonneg (v : pyval) (q : Q) :
  nonneg_value v = true -> py_float v = Ret q -> (0 <= q)%Q.
Proof.
  destruct v as [|b|n|x|s|l|dd|c]; simpl; intros Hv Hq; try discriminate.
  - injection Hq as <-. now destruct b.
  - injection Hq as <-. apply Z.leb_le in Hv.
    replace 0%Q with (inject_Z 0) by reflexivity. now rewrite <- Zle_Qle.
  - injection Hq as <-. now apply Qle_bool_iff.
  - destruct (float_of_str s) as [q'|] eqn:E; [|discriminate].
    injection Hq as <-. now apply (float_of_str_nonneg s).
Qed.





Lemma dict_get_nonneg (d : list (string * pyval)) (k : string) (v : pyval) :
  readings_nonneg (PDict d) = true ->
  dict_get k d = Some v -> nonneg_value v = true.
Proof.
  simpl. induction d as [|[k' x] t IH]; simpl; [discriminate|].
  intros H. apply andb_prop in H. destruct H as [Hx Ht].
  destruct (k' =? k)%string; [congruence | now apply IH].
Qed.

Lemma py_get_nonneg (d : list (string * pyval)) (k : string)
  (default v : pyval) :
  readings_nonneg (PDict d) = true -> nonneg_value default = true ->
  py_get (PDict d) k default = Ret v -> nonneg_value v = true.
Proof.
  intros Hd Hdef. simpl. intros [= <-].
  destruct (dict_get k d) as [x|] eqn:E; [|exact Hdef].
  now apply (dict_get_nonneg d k).
Qed.


Lemma float_field_nonneg (d : list (string * pyval)) (k : string) (q : Q) :
  readings_nonneg (PDict d) = true ->
  (v <- py_get (PDict d) k (PInt 0) ;; py_float v) = Ret q -> (0 <= q)%Q.
Proof.
  intros Hd.
  destruct (py_get (PDict d) k (PInt 0)) as [v|] eqn:E; [|discriminate].
  simpl. apply py_float_nonneg. now apply (py_get_nonneg d k (PInt 0)).
Qed.






End Signs.




(* ================================================================== *)
(** * Address enumeration                                              *)
(* ================================================================== *)

Section Addresses.

Import IPAddress.

Lemma py_range_length (lo hi : Z) :
  List.length (py_range lo hi) = Z.to_nat (hi - lo).
Proof. unfold py_range. now rewrite length_map, length_seq. Qed.

Lemma py_range_in (lo hi x : Z) :
  In x (py_range lo hi) <-> lo <= x < hi.
Proof.
  unfold py_range. rewrite in_map_iff. split.
  - intros (i & <- & Hi). apply in_seq in Hi. lia.
  - intros H. exists (Z.to_nat (x - lo)). split; [lia|].
    apply in_seq. lia.
Qed.

Lemma py_range_NoDup (lo hi : Z) : NoDup (py_range lo hi).
Proof.
  unfold py_range. generalize (seq_NoDup (Z.to_nat (hi - lo)) 0).
  generalize (seq 0 (Z.to_nat (hi - lo))) as l.
  induction l as [|i t IH]; intros Hnd; simpl; [constructor|].
  inversion Hnd as [|? ? Hi Ht]; subst. constructor.
  - rewrite in_map_iff. intros (j & Hj & Hin).
    assert (j = i) by lia. now subst j.
  - now apply IH.
Qed.

Lemma masks_table :
  forallb (fun i =>
             (hostmask (Z.of_nat i) =? 2 ^ (32 - Z.of_nat i) - 1)
             && (Z.land (netmask (Z.of_nat i)) (hostmask (Z.of_nat i)) =? 0))
          (seq 0 33) = true.
Proof. vm_compute. reflexivity. Qed.

(** The host mask of a prefix of length [n] is the low [32 - n] bits, and
    shares no bit with the net mask. *)
Lemma masks (n : Z) :
  0 <= n <= 32 ->
  hostmask n = 2 ^ (32 - n) - 1 /\ Z.land (netmask n) (hostmask n) = 0.
Proof.
  intros Hn. pose proof masks_table as H. rewrite forallb_forall in H.
  specialize (H (Z.to_nat n)). rewrite Z2Nat.id in H by lia.
  assert (Hin : In (Z.to_nat n) (seq 0 33)) by (apply in_seq; lia).
  apply H in Hin. apply andb_prop in Hin. destruct Hin as [H1 H2].
  apply Z.eqb_eq in H1. apply Z.eqb_eq in H2. now split.
Qed.

Lemma broadcast_of_network (a n : Z) :
  0 <= n <= 32 ->
  broadcast_address (make_network a n)
  = network_address (make_network a n) + 2 ^ (32 - n) - 1.
Proof.
  intros Hn. destruct (masks n Hn) as [Hh Hdisj].
  unfold broadcast_address, make_network.
  cbn [network_address prefixlen].
  pose proof (Z.add_lor_land (Z.land a (netmask n)) (hostmask n)) as H.
  rewrite <- Z.land_assoc, Hdisj, Z.land_0_r in H. lia.
Qed.

Lemma hosts_of_network (a n : Z) :
  0 <= n < 31 ->
  hosts (make_network a n)
  = py_range (network_address (make_network a n) + 1)
             (network_address (make_network a n) + 2 ^ (32 - n) - 1).
Proof.
  intros Hn. unfold hosts.
  rewrite broadcast_of_network by lia. simpl prefixlen.
  destruct (n =? 31) eqn:E1; [apply Z.eqb_eq in E1; lia|].
  destruct (n =? 32) eqn:E2; [apply Z.eqb_eq in E2; lia|].
  reflexivity.
Qed.

Lemma block_size (n : Z) : 0 <= n < 31 -> 4 <= 2 ^ (32 - n).
Proof.
  intros Hn. change 4 with (2 ^ 2). apply Z.pow_le_mono_r; lia.
Qed.

End Addresses.

(* ================================================================== *)
(** * The network scanner                                              *)
(* ================================================================== *)

Section ScannerFacts.

Import IPAddress NetworkScanner.

Variable loads : string -> res pyval.
Variable devices : string -> Z -> MinerClient.device.

Lemma probed_scan (port : Z) (ips opened : list string) :
  probed (map (fun ip => CheckPort ip port) ips
          ++ map (fun ip => IdentifyMiner ip port) opened) = ips.
Proof.
  induction ips as [|ip t IH]; simpl.
  - induction opened as [|o u IHo]; simpl; auto.
  - now rewrite IH.
Qed.

(** A response that is a non-empty object without a ["Type"] entry is
    classified as an accessible device of unknown make, and no response as
    inaccessible. *)
Lemma classify_unknown (d : list (string * pyval)) :
  d <> [] -> dict_get "Type" d = None ->
  classify (PDict d) = Ret (Some "Unknown", None, true).
Proof.
  intros Hd Ht. unfold classify. simpl. rewrite Ht.
  destruct d; [congruence | reflexivity].
Qed.

Lemma classify_none : classify PNone = Ret (None, None, false).
Proof. reflexivity. Qed.

(** The object that [get_summary] returns is a coroutine that nobody
    awaits: testing ["Type" in summary] raises. *)
Lemma classify_coroutine (pending : res pyval) :
  classify (PCoroutine pending) = Raise TypeError.
Proof. reflexivity. Qed.

Lemma record_of_reason (port : Z) (ip : string) :
  reason_attached (record_of loads devices port ip) /\
  ip_address (record_of loads devices port ip) = ip.
Proof.
  unfold reason_attached, record_of.
  destruct (identify_miner loads devices ip port) as [[m mo] [|]]; simpl;
    split; congruence.
Qed.

End ScannerFacts.

Lemma Permutation_filter_compat {A : Type} (f : A -> bool) (l l' : list A) :
  Permutation l l' -> Permutation (filter f l) (filter f l').
Proof.
  induction 1 as [|x l l' _ IH|x y l|l l' l'' _ IH1 _ IH2]; simpl.
  - constructor.
  - destruct (f x); [now constructor | exact IH].
  - destruct (f x), (f y); try reflexivity. constructor.
  - now transitivity (filter f l').
Qed.

(** C7.  When the network string denotes the IPv4 block [a/n] with
    [n < 31], the scan probes exactly the addresses strictly between the
    network and the broadcast address of the block, each once, and there
    are [2^(32-n) - 2] of them; when [ip_network] rejects the string, the
    scan raises [ValueError] and has submitted no task, so that no
    connection was attempted. *)
Theorem scan_enumerates_usable_hosts :
  forall (loads : string -> res pyval)
         (ip_network : string -> option IPAddress.IPv4Network)
         (connect_ex : string -> Z -> res Z)
         (devices : string -> Z -> MinerClient.device)
         (probes_completed identifications_completed :
            list string -> list string)
         (network : string) (port : Z),
    (forall a n : Z,
        0 <= a < 2 ^ 32 -> 0 <= n < 31 ->
        ip_network network = Some (IPAddress.make_network a n) ->
        probed (fst (NetworkScanner.scan_network loads ip_network connect_ex
                       devices probes_completed identifications_completed
                       network port))
        = map IPAddress.str_of_ip
            (IPAddress.hosts (IPAddress.make_network a n)) /\
        Z.of_nat (List.length (IPAddress.hosts (IPAddress.make_network a n)))
        = 2 ^ (32 - n) - 2 /\
        NoDup (IPAddress.hosts (IPAddress.make_network a n)) /\
        (forall x : Z,
            In x (IPAddress.hosts (IPAddress.make_network a n)) <->
            IPAddress.network_address (IPAddress.make_network a n) < x
            < IPAddress.broadcast_address (IPAddress.make_network a n))) /\
    (ip_network network = None ->
     NetworkScanner.scan_network loads ip_network connect_ex devices
       probes_completed identifications_completed network port
     = ([], Raise ValueError)).
Proof.
  intros loads ip_network connect_ex devices pc ic network port. split.
  - intros a n Ha Hn Hnet. unfold NetworkScanner.scan_network.
    rewrite Hnet. cbn [fst]. rewrite probed_scan.
    rewrite hosts_of_network by exact Hn.
    rewrite broadcast_of_network by lia.
    pose proof (block_size n Hn) as Hsize.
    split; [reflexivity|]. split; [|split].
    + rewrite py_range_length. lia.
    + apply py_range_NoDup.
    + intros x. rewrite py_range_in. lia.
  - intros Hnone. unfold NetworkScanner.scan_network. now rewrite Hnone.
Qed.

Lemma scan_enumerates_usable_hosts_witness :
  IPAddress.ip_network_v4 "192.168.1.0/24"
  = Some (IPAddress.make_network 3232235776 24) /\
  Z.of_nat
    (List.length
       (probed (fst (NetworkScanner.scan_network Samples.loads
                       IPAddress.ip_network_v4 World.closed
                       (World.every Samples.refusing)
                       World.in_order World.in_order
                       "192.168.1.0/24" 4028)))) = 254 /\
  IPAddress.ip_network_v4 "192.168.1.0/33" = None /\
  NetworkScanner.scan_network Samples.loads IPAddress.ip_network_v4
    World.closed (World.every Samples.refusing)
    World.in_order World.in_order "192.168.1.0/33" 4028
  = ([], Raise ValueError).
Proof.
  assert (Hnet : IPAddress.ip_network_v4 "192.168.1.0/24"
                 = Some (IPAddress.make_network 3232235776 24))
    by reflexivity.
  split; [exact Hnet|]. split; [|split; [reflexivity|]].
  - destruct (scan_enumerates_usable_hosts Samples.loads
                IPAddress.ip_network_v4 World.closed
                (World.every Samples.refusing)
                World.in_order World.in_order "192.168.1.0/24" 4028)
      as [H _].
    destruct (H 3232235776 24) as (Hp & Hl & _); [lia | lia | exact Hnet |].
    rewrite Hp, length_map, Hl. reflexivity.
  - apply (proj2 (scan_enumerates_usable_hosts Samples.loads
                    IPAddress.ip_network_v4 World.closed
                    (World.every Samples.refusing)
                    World.in_order World.in_order "192.168.1.0/33" 4028)).
    reflexivity.
Defined.

(** C6, as the code has it.  The result of a scan holds one record for
    each address whose port probe succeeded, and none for the others; a
    record that is not accessible carries a reason. *)
Theorem scan_reports_open_ports_only :
  forall (loads : string -> res pyval)
         (ip_network : string -> option IPAddress.IPv4Network)
         (connect_ex : string -> Z -> res Z)
         (devices : string -> Z -> MinerClient.device)
         (probes_completed identifications_completed :
            list string -> list string)
         (network : string) (port : Z) (net : IPAddress.IPv4Network),
    (forall l, Permutation (probes_completed l) l) ->
    (forall l, Permutation (identifications_completed l) l) ->
    ip_network network = Some net ->
    exists records,
      snd (NetworkScanner.scan_network loads ip_network connect_ex devices
             probes_completed identifications_completed network port)
      = Ret records /\
      Permutation
        (map NetworkScanner.ip_address records)
        (filter (fun ip => NetworkScanner.check_port connect_ex ip port)
           (map IPAddress.str_of_ip (IPAddress.hosts net))) /\
      Forall reason_attached records.
Proof.
  intros loads ip_network connect_ex devices pc ic network port net
    Hpc Hic Hnet.
  unfold NetworkScanner.scan_network. rewrite Hnet. cbn [snd].
  eexists. split; [reflexivity|]. split.
  - rewrite map_map.
    erewrite map_ext
      by (intros ip; apply (proj2 (record_of_reason loads devices port ip))).
    rewrite map_id.
    etransitivity; [apply Hic|].
    apply Permutation_filter_compat, Hpc.
  - apply Forall_forall. intros r Hr. apply in_map_iff in Hr.
    destruct Hr as (ip & <- & _).
    apply (proj1 (record_of_reason loads devices port ip)).
Qed.

Lemma scan_reports_open_ports_only_witness :
  (forall l, Permutation (World.in_order l) l) /\
  IPAddress.ip_network_v4 "192.168.1.0/30"
  = Some (IPAddress.make_network 3232235776 30) /\
  exists records,
    snd (NetworkScanner.scan_network Samples.loads IPAddress.ip_network_v4
           World.open (World.every Samples.answering)
           World.in_order World.in_order "192.168.1.0/30" 4028)
    = Ret records /\
    Permutation (map NetworkScanner.ip_address records)
      ["192.168.1.1"; "192.168.1.2"] /\
    Forall reason_attached records.
Proof.
  assert (Hid : forall l, Permutation (World.in_order l) l)
    by (intros l; apply Permutation_refl).
  split; [exact Hid|]. split; [reflexivity|].
  destruct (scan_reports_open_ports_only Samples.loads
              IPAddress.ip_network_v4 World.open
              (World.every Samples.answering)
              World.in_order World.in_order "192.168.1.0/30" 4028
              (IPAddress.make_network 3232235776 30) Hid Hid eq_refl)
    as (records & Hs & Hp & Hr).
  exists records. split; [exact Hs|]. split; [exact Hp | exact Hr].
Defined.

(** C6, as stated, fails: on a block whose two usable addresses both
    refuse the connection, both are probed and the result is the empty
    list. *)
Lemma scan_omits_closed_addresses :
  probed (fst (NetworkScanner.scan_network Samples.loads
                 IPAddress.ip_network_v4 World.closed
                 (World.every Samples.refusing)
                 World.in_order World.in_order "192.168.1.0/30" 4028))
  = ["192.168.1.1"; "192.168.1.2"] /\
  snd (NetworkScanner.scan_network Samples.loads
         IPAddress.ip_network_v4 World.closed
         (World.every Samples.refusing)
         World.in_order World.in_order "192.168.1.0/30" 4028)
  = Ret [].
Proof. split; reflexivity. Qed.

(** C5.  [identify_miner] never reports a device as accessible: the
    coroutine object that the unawaited [get_summary()] returns makes the
    test ["Type" in summary] raise, and the handler answers
    [(None, None, False)].  So also the device whose summary, once awaited,
    would be classified as an accessible device of unknown make is recorded
    as inaccessible, with the reason that tells of an unrecognised type. *)
Theorem identify_miner_never_identifies :
  (forall (loads : string -> res pyval)
          (devices : string -> Z -> MinerClient.device)
          (ip : string) (port : Z),
      NetworkScanner.identify_miner loads devices ip port
      = (None, None, false) /\
      NetworkScanner.record_of loads devices port ip
      = {| NetworkScanner.ip_address := ip;
           NetworkScanner.port := port;
           NetworkScanner.manufacturer := None;
           NetworkScanner.model := None;
           NetworkScanner.is_accessible := false;
           NetworkScanner.error := Some "Could not identify miner type" |}) /\
  (exists summary,
      await (MinerClient.get_summary Samples.loads Samples.answering)
      = Ret summary /\
      NetworkScanner.classify summary = Ret (Some "Unknown", None, true)) /\
  snd (NetworkScanner.scan_network Samples.loads IPAddress.ip_network_v4
         World.open (World.every Samples.answering)
         World.in_order World.in_order "192.168.1.1/32" 4028)
  = Ret [ {| NetworkScanner.ip_address := "192.168.1.1";
             NetworkScanner.port := 4028;
             NetworkScanner.manufacturer := None;
             NetworkScanner.model := None;
             NetworkScanner.is_accessible := false;
             NetworkScanner.error := Some "Could not identify miner type" |} ].
Proof.
  split; [|split].
  - intros loads devices ip port. split; reflexivity.
  - eexists. split; reflexivity.
  - reflexivity.
Qed.

(* ================================================================== *)
(** * The polling cycle                                                *)
(* ================================================================== *)

Section MonitoringFacts.

Import MinerClient Monitoring.

Variable loads : string -> res pyval.
Variable devices : string -> Z -> device.
Variable now : string.

Lemma send_command_unreachable (x : exchange) (command : pyval) :
  on_connect x <> Done -> _send_command loads x command = Ret PNone.
Proof.
  intros H. unfold _send_command, send_command_body.
  destruct (on_connect x); [contradiction | reflexivity | reflexivity].
Qed.

(** For such a device [get_all_data] still returns its dict, with [None]
    under each command. *)
Lemma get_all_data_unreachable (dev : device) :
  unreachable dev ->
  await (get_all_data loads now dev)
  = Ret (PDict [("summary", PNone); ("stats", PNone); ("pools", PNone);
                ("devs", PNone); ("timestamp", PStr now)]).
Proof.
  intros H. unfold get_all_data, get_summary, get_stats, get_pools, get_devs.
  cbn [await].
  now rewrite !send_command_unreachable by apply H.
Qed.

Lemma poll_miner_unreachable (db : database) (miner db_miner : Miner) :
  unreachable (devices (ip_address miner) (port miner)) ->
  find (fun m => id m =? id miner) (miners db) = Some db_miner ->
  poll_miner loads devices now db miner
  = (true, add_stats db (empty_row (id db_miner))).
Proof.
  intros Hdev Hfind. unfold poll_miner, poll_miner_body.
  rewrite (get_all_data_unreachable _ Hdev). cbn. rewrite Hfind.
  reflexivity.
Qed.


End MonitoringFacts.

(** C8.  A device that refuses or times out every connection is not
    counted as a failure: [poll_miner] returns [True] for it and stores a
    row without any reading.  In a cycle over two active devices of which
    the second refuses every connection, [poll_all_miners] counts two
    successes and no failure. *)
Theorem unreachable_device_counts_as_success :
  (forall (loads : string -> res pyval)
          (devices : string -> Z -> MinerClient.device) (now : string)
          (db : Monitoring.database) (miner db_miner : Monitoring.Miner),
      unreachable (devices (Monitoring.ip_address miner)
                     (Monitoring.port miner)) ->
      find (fun m => Monitoring.id m =? Monitoring.id miner)
        (Monitoring.miners db) = Some db_miner ->
      Monitoring.poll_miner loads devices now db miner
      = (true, Monitoring.add_stats db (empty_row (Monitoring.id db_miner))))
  /\
  (exists row,
      Monitoring.poll_all_miners Samples.loads Farm.devices Farm.now Farm.db
      = (Some {| Monitoring.successful := 2; Monitoring.failed := 0 |},
         {| Monitoring.miners := Monitoring.miners Farm.db;
            Monitoring.miner_stats := [row; empty_row 2] |}) /\
      Monitoring.miner_id row = 1 /\
      Monitoring.hash_rate row = Some 1234.5%Q).
Proof.
  split.
  - intros. now apply poll_miner_unreachable.
  - eexists. split; [reflexivity|]. split; reflexivity.
Qed.

Lemma unreachable_device_counts_as_success_witness :
  unreachable (Farm.devices (Monitoring.ip_address Farm.second)
                 (Monitoring.port Farm.second)) /\
  find (fun m => Monitoring.id m =? Monitoring.id Farm.second)
    (Monitoring.miners Farm.db) = Some Farm.second /\
  Monitoring.poll_miner Samples.loads Farm.devices Farm.now Farm.db
    Farm.second
  = (true, Monitoring.add_stats Farm.db (empty_row 2)).
Proof.
  assert (Hdev : unreachable
                   (Farm.devices (Monitoring.ip_address Farm.second)
                      (Monitoring.port Farm.second)))
    by (intros command; discriminate).
  split; [exact Hdev|]. split; [reflexivity|].
  apply (proj1 unreachable_device_counts_as_success
           Samples.loads Farm.devices Farm.now Farm.db
           Farm.second Farm.second Hdev eq_refl).
Defined.

(* ================================================================== *)
(** * Further properties of the protocol client                        *)
(* ================================================================== *)

Lemma send_command_total (loads : string -> res pyval)
  (x : MinerClient.exchange) (command : pyval) :
  exists data, MinerClient._send_command loads x command = Ret data.
Proof.
  unfold MinerClient._send_command.
  destruct (MinerClient.send_command_body loads x command) as [d|[]]; eauto.
Qed.

(** X1.  The read loop retries only on [JSONDecodeError].  When a segment
    ends inside a multi-byte character, so that the accumulated buffer is
    not UTF-8, [_send_command] returns [None] at once, whatever the device
    sends afterwards. *)
Theorem send_command_gives_up_on_split_character :
  forall (loads : string -> res pyval) (x : MinerClient.exchange)
         (command : pyval) (chunks : list string) (c : string)
         (rest : list MinerClient.recv_event),
    MinerClient.on_connect x = MinerClient.Done ->
    MinerClient.serializable command = true ->
    MinerClient.on_sendall x = MinerClient.Done ->
    MinerClient.received x
    = map MinerClient.Chunk chunks ++ MinerClient.Chunk c :: rest ->
    incomplete loads EmptyString chunks ->
    c <> EmptyString ->
    loads (String.append (buffer EmptyString chunks) c)
    = Raise UnicodeDecodeError ->
    MinerClient._send_command loads x command = Ret PNone.
Proof.
  intros loads x command chunks c rest Hc Hs Hw Hr Hi Hne Hd.
  unfold MinerClient._send_command.
  rewrite (send_command_connected loads x command Hc Hs Hw), Hr.
  rewrite (read_loop_chunks loads chunks _ _ Hi). simpl.
  apply String.eqb_neq in Hne. now rewrite Hne, Hd.
Qed.

Lemma send_command_gives_up_on_split_character_witness :
  Cases.loads_utf8 (String.append Cases.split_head Cases.split_tail)
  = Ret Cases.split_value /\
  MinerClient._send_command Cases.loads_utf8 Cases.splitting
    (MinerClient.command_of "summary") = Ret PNone.
Proof.
  split; [reflexivity|].
  apply (send_command_gives_up_on_split_character Cases.loads_utf8
           Cases.splitting (MinerClient.command_of "summary")
           [] Cases.split_head [MinerClient.Chunk Cases.split_tail]);
    first [reflexivity | discriminate | exact I].
Defined.

(** X2.  [get_all_data] never returns [None] or an empty value: whatever
    the device does, the awaited result is the dict of the four answers of
    [_send_command] and the time stamp. *)
Theorem get_all_data_always_a_dict :
  forall (loads : string -> res pyval) (now : string)
         (dev : MinerClient.device),
  exists summary stats pools devs all,
    await (MinerClient.get_all_data loads now dev) = Ret all /\
    all = PDict [("summary", summary); ("stats", stats); ("pools", pools);
                 ("devs", devs); ("timestamp", PStr now)] /\
    truthy all = true /\
    MinerClient._send_command loads (dev "summary")
      (MinerClient.command_of "summary") = Ret summary /\
    MinerClient._send_command loads (dev "stats")
      (MinerClient.command_of "stats") = Ret stats /\
    MinerClient._send_command loads (dev "pools")
      (MinerClient.command_of "pools") = Ret pools /\
    MinerClient._send_command loads (dev "devs")
      (MinerClient.command_of "devs") = Ret devs.
Proof.
  intros loads now dev.
  destruct (send_command_total loads (dev "summary")
              (MinerClient.command_of "summary")) as [s Hs].
  destruct (send_command_total loads (dev "stats")
              (MinerClient.command_of "stats")) as [t Ht].
  destruct (send_command_total loads (dev "pools")
              (MinerClient.command_of "pools")) as [p Hp].
  destruct (send_command_total loads (dev "devs")
              (MinerClient.command_of "devs")) as [d Hd].
  exists s, t, p, d. eexists. split; [|split; [reflexivity|]].
  - unfold MinerClient.get_all_data, MinerClient.get_summary,
      MinerClient.get_stats, MinerClient.get_pools, MinerClient.get_devs.
    cbn [await]. now rewrite Hs, Ht, Hp, Hd.
  - repeat split; assumption.
Qed.

(* ================================================================== *)
(** * Further properties of the parsers                                *)
(* ================================================================== *)

(** X3.  [parse_summary_data] returns the empty dict exactly when the
    response is falsy or lacks the key ["SUMMARY"]; [parse_stats_data]
    returns it exactly when the response is falsy, lacks the key ["STATS"],
    or holds a falsy value under it.  Every other response gives the
    record or raises. *)
Theorem parsers_return_empty_dict_iff :
  (forall summary : pyval,
      MinerClient.parse_summary_data summary = Ret None <->
      truthy summary = false \/ py_in "SUMMARY" summary = Ret false) /\
  (forall stats : pyval,
      MinerClient.parse_stats_data stats = Ret None <->
      truthy stats = false \/ py_in "STATS" stats = Ret false \/
      exists v, py_get stats "STATS" (PList []) = Ret v /\ truthy v = false).
Proof.
  split.
  - intros summary. unfold MinerClient.parse_summary_data. split.
    + destruct (truthy summary); simpl; [|auto].
      destruct (py_in "SUMMARY" summary) as [[|]|]; simpl;
        [|auto|discriminate].
      destruct (py_get summary "SUMMARY" PNone) as [listed|]; simpl;
        [|discriminate].
      destruct (if is_list listed then _ else _) as [data|]; simpl;
        [|discriminate].
      destruct (MinerClient.summary_record data); simpl; discriminate.
    + intros [H|H].
      * now rewrite H.
      * rewrite H. now destruct (truthy summary).
  - intros stats. unfold MinerClient.parse_stats_data. split.
    + destruct (truthy stats); simpl; [|auto].
      destruct (py_in "STATS" stats) as [[|]|]; simpl; [|auto|discriminate].
      destruct (py_get stats "STATS" (PList [])) as [v|]; simpl;
        [|discriminate].
      destruct (truthy v) eqn:Hv; simpl; [|eauto].
      destruct (getitem_last v) as [data|]; simpl; [|discriminate].
      destruct (MinerClient.stats_record data); simpl; discriminate.
    + intros [H|[H|(v & Hv & Hf)]].
      * now rewrite H.
      * rewrite H. now destruct (truthy stats).
      * destruct stats; try discriminate Hv.
        cbn [py_get] in Hv. injection Hv as Hv.
        destruct d as [|kv t]; [reflexivity|].
        cbn [truthy negb py_in py_get bind].
        destruct (dict_get "STATS" (kv :: t)) as [x|]; cbn [negb bind].
        -- subst v. now rewrite Hf.
        -- reflexivity.
Qed.

Lemma parsers_return_empty_dict_iff_witness :
  truthy PNone = false /\
  MinerClient.parse_summary_data PNone = Ret None /\
  MinerClient.parse_stats_data (PDict [("STATS", PList [])]) = Ret None.
Proof.
  split; [reflexivity|]. split.
  - apply (proj1 parsers_return_empty_dict_iff PNone). left. reflexivity.
  - apply (proj2 parsers_return_empty_dict_iff (PDict [("STATS", PList [])])).
    right. right. exists (PList []). split; reflexivity.
Defined.

(** X4.  Of a list under the category key, [parse_summary_data] reads the
    first entry and raises [IndexError] when there is none,
    [parse_stats_data] reads the last entry, and the agent reads the first
    entry of either list. *)
Theorem parsers_pick_entries :
  (forall (d : list (string * pyval)) (l : list pyval),
      dict_get "SUMMARY" d = Some (PList l) ->
      MinerClient.parse_summary_data (PDict d)
      = match l with
        | [] => Raise IndexError
        | x :: _ => r <- MinerClient.summary_record x ;; Ret (Some r)
        end) /\
  (forall (d : list (string * pyval)) (l : list pyval) (x : pyval),
      dict_get "STATS" d = Some (PList (l ++ [x])) ->
      MinerClient.parse_stats_data (PDict d)
      = (r <- MinerClient.stats_record x ;; Ret (Some r))) /\
  (forall (key : string) (d : list (string * pyval)) (l : list pyval)
          (x : pyval),
      dict_get key d = Some (PList (x :: l)) ->
      Agent.payload key (PDict d) = Ret x).
Proof.
  split; [|split].
  - intros d l H. unfold MinerClient.parse_summary_data.
    destruct d as [|kv t]; [discriminate|].
    cbn [truthy negb py_in py_get getitem_key bind]. rewrite H.
    cbn [negb is_list bind]. now destruct l.
  - intros d l x H. unfold MinerClient.parse_stats_data.
    destruct d as [|kv t]; [discriminate|].
    cbn [truthy negb py_in py_get bind]. rewrite H.
    cbn [negb bind truthy].
    destruct (l ++ [x]) as [|y u] eqn:E; [now destruct l|].
    cbn [negb]. rewrite <- E. unfold getitem_last.
    rewrite rev_app_distr. reflexivity.
  - intros key d l x H. unfold Agent.payload.
    cbn [is_dict py_in getitem_key bind]. rewrite H. reflexivity.
Qed.

Lemma parsers_pick_entries_witness :
  MinerClient.parse_summary_data (PDict [("SUMMARY", PList [])])
  = Raise IndexError /\
  (exists r,
      MinerClient.parse_stats_data
        (PDict [("STATS", PList [PDict [("fan", PList [PInt 1])];
                                 PDict [("fan", PList [PInt 2])]])])
      = Ret (Some r) /\ MinerClient.fan_speed r = Some 2) /\
  Agent.payload "STATS"
    (PDict [("STATS", PList [PDict [("fan", PList [PInt 1])];
                             PDict [("fan", PList [PInt 2])]])])
  = Ret (PDict [("fan", PList [PInt 1])]).
Proof.
  split; [|split].
  - apply (proj1 parsers_pick_entries [("SUMMARY", PList [])] []).
    reflexivity.
  - eexists. split.
    + rewrite (proj1 (proj2 parsers_pick_entries)
                 [("STATS", PList [PDict [("fan", PList [PInt 1])];
                                   PDict [("fan", PList [PInt 2])]])]
                 [PDict [("fan", PList [PInt 1])]] (PDict [("fan", PList [PInt 2])])
                 eq_refl).
      cbv. reflexivity.
    + reflexivity.
  - apply (proj2 (proj2 parsers_pick_entries) "STATS"
             [("STATS", PList [PDict [("fan", PList [PInt 1])];
                               PDict [("fan", PList [PInt 2])]])]
             [PDict [("fan", PList [PInt 2])]]).
    reflexivity.
Defined.

(** ** Lists of readings *)



Lemma fold_max_spec (ns : list Z) :
  forall n,
    n <= fold_left Z.max ns n /\
    Forall (fun x => x <= fold_left Z.max ns n) ns /\
    In (fold_left Z.max ns n) (n :: ns).
Proof.
  induction ns as [|x t IH]; intros n; cbn [fold_left].
  - repeat split; [lia | constructor | now left].
  - destruct (IH (Z.max n x)) as (Hge & Hall & Hin). split; [lia|]. split.
    + constructor; [lia | exact Hall].
    + destruct Hin as [Hin | Hin].
      * destruct (Z.max_spec n x) as [[_ E] | [_ E]]; rewrite E in Hin |- *.
        -- right. now left.
        -- now left.
      * right. now right.
Qed.





(* ================================================================== *)
(** * Further properties of the agent's extraction                     *)
(* ================================================================== *)

Lemma digit_plain (c : ascii) :
  char_isdigit c = true -> is_space c = false /\ (code c =? 45) = false.
Proof.
  destruct c as [[] [] [] [] [] [] [] []]; intros H;
    first [discriminate H | split; reflexivity].
Qed.

Lemma forallb_rev_true {A : Type} (f : A -> bool) (l : list A) :
  forallb f l = true -> forallb f (rev l) = true.
Proof.
  rewrite !forallb_forall. intros H x Hx. apply H. now apply in_rev.
Qed.

Lemma lstrip_digits (cs : list ascii) :
  forallb char_isdigit cs = true -> lstrip cs = cs.
Proof.
  destruct cs as [|c t]; [reflexivity|]. cbn [forallb lstrip].
  intros H. apply andb_prop in H. destruct H as [Hc _].
  now rewrite (proj1 (digit_plain c Hc)).
Qed.

Lemma strip_digits (cs : list ascii) :
  forallb char_isdigit cs = true -> strip cs = cs.
Proof.
  intros H. unfold strip. rewrite (lstrip_digits cs H).
  rewrite (lstrip_digits (rev cs)) by now apply forallb_rev_true.
  apply rev_involutive.
Qed.

Lemma isdigit_nonneg (t : string) :
  isdigit t = true -> nonneg_value (PStr t) = true.
Proof.
  unfold isdigit. cbn [nonneg_value].
  destruct (list_ascii_of_string t) as [|c cs] eqn:E; [discriminate|].
  intros H. rewrite (strip_digits _ H).
  cbn [forallb] in H. apply andb_prop in H. destruct H as [Hc _].
  now rewrite (proj2 (digit_plain c Hc)).
Qed.

Lemma digit_tokens_nonneg (tokens : list string) :
  forall ns, Agent.digit_tokens tokens = Ret ns ->
             Forall (fun n => 0 <= n) ns.
Proof.
  induction tokens as [|t rest IH]; intros ns H; cbn [Agent.digit_tokens] in H.
  - injection H as <-. constructor.
  - destruct (isdigit t) eqn:Hd; [|now apply IH].
    destruct (int_of_str t) as [n|] eqn:Hn; [|discriminate H].
    destruct (Agent.digit_tokens rest) as [ms|]; [|discriminate H].
    cbn [bind] in H. injection H as <-. constructor.
    + apply (int_of_str_nonneg t n); [now apply isdigit_nonneg | exact Hn].
    + now apply IH.
Qed.


Lemma agent_sensor_nonneg (data : pyval) (key : string) (o : option Z) :
  Agent.sensor data key = Ret o -> absent_or_nonneg_Z o.
Proof.
  unfold Agent.sensor.
  destruct (py_in key data) as [[|]|]; cbn [bind]; try discriminate.
  - destruct (getitem_key data key) as [v|e0]; cbn [bind catch].
    + destruct (Agent.digit_tokens (split (py_str v))) as [ns|e1] eqn:E;
        cbn [bind catch].
      * apply digit_tokens_nonneg in E.
        destruct ns as [|n rest]; intros [= <-]; [exact I|].
        inversion E; subst. cbn [absent_or_nonneg_Z]. unfold Agent.max_Z.
        pose proof (proj1 (fold_max_spec rest n)). lia.
      * destruct (Agent.handles_value_type e1); [|discriminate].
        intros [= <-]. exact I.
    + destruct (Agent.handles_value_type e0); [|discriminate].
      intros [= <-]. exact I.
  - intros [= <-]. exact I.
Qed.




(** X6.  The temperature and the fan speed that the agent's [poll_miner]
    extracts are never negative: they are built from the tokens of the
    field that consist of digits only. *)
Theorem agent_sensors_never_negative :
  forall (summary stats : pyval) (s : Agent.sample),
    Agent.poll_miner_from summary stats = Some s ->
    absent_or_nonneg_Z (Agent.temperature s) /\
    absent_or_nonneg_Z (Agent.fan_speed s).
Proof.
  intros summary stats s. unfold Agent.poll_miner_from, Agent.poll_miner_body.
  destruct (negb (truthy summary)); [discriminate|].
  destruct (Agent.payload "SUMMARY" summary) as [sd|]; [|discriminate].
  destruct (Agent.payload "STATS" stats) as [st|]; [|discriminate].
  cbn [bind]. unfold Agent.telemetry.
  destruct (Agent.hash_rate_of sd); [|discriminate].
  destruct (py_get sd "Accepted" PNone); [|discriminate].
  destruct (py_get sd "Rejected" PNone); [|discriminate].
  destruct (py_get sd "Pool Rejected%" PNone); [|discriminate].
  cbn [bind].
  destruct (if is_dict st then Agent.sensor st "temp" else Ret None)
    as [t|] eqn:Et; [|discriminate].
  destruct (if is_dict st then Agent.sensor st "fan" else Ret None)
    as [f|] eqn:Ef; [|discriminate].
  cbn [bind]. intros [= <-]. cbn [Agent.temperature Agent.fan_speed].
  destruct (is_dict st).
  - split; [now apply (agent_sensor_nonneg st "temp")
           | now apply (agent_sensor_nonneg st "fan")].
  - injection Et as <-. injection Ef as <-. split; exact I.
Qed.

Lemma agent_sensors_never_negative_witness :
  exists s,
    Agent.poll_miner_from Samples.summary_value
      (Samples.wrapped "STATS" [("temp", PStr "-40 55 x7 60");
                                ("fan", PInt (-1200))]) = Some s /\
    Agent.temperature s = Some 60 /\
    Agent.fan_speed s = None /\
    absent_or_nonneg_Z (Agent.temperature s) /\
    absent_or_nonneg_Z (Agent.fan_speed s).
Proof.
  eexists. split; [reflexivity|]. split; [reflexivity|].
  split; [reflexivity|].
  apply (agent_sensors_never_negative Samples.summary_value
           (Samples.wrapped "STATS" [("temp", PStr "-40 55 x7 60");
                                     ("fan", PInt (-1200))])).
  reflexivity.
Defined.


(* ================================================================== *)
(** * Further properties of the classification                         *)
(* ================================================================== *)

(** The answers of the classification. *)
Lemma classify_cases :
  forall (summary : pyval) (m mo : option string) (a : bool),
    NetworkScanner.classify summary = Ret (m, mo, a) ->
    (truthy summary = false /\ m = None /\ mo = None /\ a = false) \/
    (truthy summary = true /\ a = true /\
     ((m = Some "Unknown" /\ mo = None) \/
      (m = Some "Whatsminer" /\
       (mo = None \/ mo = Some "M50" \/ mo = Some "M30" \/ mo = Some "M20")))).
Proof.
  intros summary m mo a. unfold NetworkScanner.classify.
  destruct (truthy summary); [|intros [= <- <- <-]; left; auto].
  destruct (py_in "Type" summary) as [[|]|]; cbn [bind]; try discriminate.
  - destruct (py_get summary "Type" (PStr EmptyString)) as [t|];
      cbn [bind]; [|discriminate].
    destruct (contains "whatsminer" (lower (py_str t))
              || contains "m" (lower (py_str t))); cbn [bind fst snd].
    + destruct (contains "m50" (lower (py_str t)) || contains "M50" (py_str t));
        [|destruct (contains "m30" (lower (py_str t))
                    || contains "M30" (py_str t));
          [|destruct (contains "m20" (lower (py_str t))
                      || contains "M20" (py_str t))]];
        cbn; intros [= <- <- <-]; right; auto 10.
    + cbn. intros [= <- <- <-]. right. auto 10.
  - cbn. intros [= <- <- <-]. right. auto 10.
Qed.

(** X8.  Whatever the summary is, [identify_miner]'s classification either
    finds it falsy and answers [(None, None, False)], or answers an
    accessible device whose manufacturer is ["Unknown"] without a model or
    ["Whatsminer"] with one of the models M50, M30, M20 or none. *)
Theorem classify_outcomes :
  forall (summary : pyval) (m mo : option string) (a : bool),
    NetworkScanner.classify summary = Ret (m, mo, a) ->
    (truthy summary = false /\ m = None /\ mo = None /\ a = false) \/
    (truthy summary = true /\ a = true /\
     ((m = Some "Unknown" /\ mo = None) \/
      (m = Some "Whatsminer" /\
       (mo = None \/ mo = Some "M50" \/ mo = Some "M30" \/ mo = Some "M20")))).
Proof. exact classify_cases. Qed.

Lemma classify_outcomes_witness :
  NetworkScanner.classify (PDict [("Type", PStr "WhatsMiner M30S+")])
  = Ret (Some "Whatsminer", Some "M30", true) /\
  truthy (PDict [("Type", PStr "WhatsMiner M30S+")]) = true.
Proof.
  split; [reflexivity|].
  destruct (classify_outcomes (PDict [("Type", PStr "WhatsMiner M30S+")])
              (Some "Whatsminer") (Some "M30") true eq_refl)
    as [(H & _) | (H & _)]; [discriminate H | exact H].
Defined.

Lemma prefix_whatsminer_m (s : string) :
  prefix "whatsminer" s = true -> contains "m" s = true.
Proof.
  intros H.
  do 6 (destruct s as [|? s]; [discriminate H|];
        cbn [prefix] in H;
        match type of H with
        | (if ?c then _ else _) = _ =>
            destruct c as [<-|]; [|discriminate H]
        end).
  destruct s; reflexivity.
Qed.

Lemma contains_whatsminer_m (s : string) :
  contains "whatsminer" s = true -> contains "m" s = true.
Proof.
  induction s as [|c t IH]; cbn [contains]; intros H.
  - discriminate H.
  - apply orb_prop in H. destruct H as [H|H].
    + apply (prefix_whatsminer_m (String c t) H).
    + rewrite (IH H). apply orb_true_r.
Qed.

(** X9.  A response object with a ["Type"] entry is labelled
    ["Whatsminer"] exactly when the text of that entry holds the letter m in
    either case, and ["Unknown"] otherwise: the test for ["whatsminer"]
    adds nothing to the test for ["m"]. *)
Theorem classify_by_letter_m :
  forall (d : list (string * pyval)) (t : pyval),
    dict_get "Type" d = Some t ->
    exists mo,
      NetworkScanner.classify (PDict d)
      = Ret (Some (if contains "m" (lower (py_str t))
                   then "Whatsminer" else "Unknown"), mo, true).
Proof.
  intros d t H. unfold NetworkScanner.classify.
  destruct d as [|kv rest]; [discriminate H|].
  cbn [truthy py_in py_get bind]. rewrite H. cbn [bind].
  destruct (contains "m" (lower (py_str t))) eqn:Em.
  - rewrite orb_true_r. cbn. eauto.
  - destruct (contains "whatsminer" (lower (py_str t))) eqn:Ew.
    + apply contains_whatsminer_m in Ew. congruence.
    + cbn. eauto.
Qed.

Lemma classify_by_letter_m_witness :
  dict_get "Type" [("Type", PStr "Antminer S19")]
  = Some (PStr "Antminer S19") /\
  exists mo,
    NetworkScanner.classify (PDict [("Type", PStr "Antminer S19")])
    = Ret (Some "Whatsminer", mo, true).
Proof.
  split; [reflexivity|].
  apply (classify_by_letter_m [("Type", PStr "Antminer S19")]
           (PStr "Antminer S19") eq_refl).
Defined.

(* ================================================================== *)
(** * The catalogue of models                                          *)
(* ================================================================== *)

Lemma lookup_in_keys (k : string)
  (table : list (string * MinerModels.entry)) :
  (exists e, MinerModels.lookup k table = Some e) <-> In k (map fst table).
Proof.
  induction table as [|[k' e'] rest IH]; cbn [MinerModels.lookup map fst In].
  - split; [intros [e H]; discriminate H | contradiction].
  - destruct (String.eqb_spec k' k) as [->|Hne].
    + split; [auto | eauto].
    + rewrite IH. split; [auto | intros [H|H]; [contradiction | exact H]].
Qed.

(** X10.  A manufacturer is valid exactly when [get_manufacturers] lists
    it, and a model is valid for a manufacturer exactly when
    [get_models_by_manufacturer] lists it; for a manufacturer that is not
    valid that list is empty. *)
Theorem catalogue_validity :
  forall manufacturer model : string,
    (MinerModels.is_valid_manufacturer manufacturer = true <->
     In manufacturer MinerModels.get_manufacturers) /\
    (MinerModels.is_valid_model manufacturer model = true <->
     In model (MinerModels.get_models_by_manufacturer manufacturer)) /\
    (MinerModels.is_valid_manufacturer manufacturer = false ->
     MinerModels.get_models_by_manufacturer manufacturer = []).
Proof.
  intros manufacturer model.
  unfold MinerModels.is_valid_model, MinerModels.is_valid_manufacturer,
    MinerModels.get_models_by_manufacturer, MinerModels.get_manufacturers.
  rewrite <- lookup_in_keys.
  destruct (MinerModels.lookup manufacturer MinerModels.MINER_MANUFACTURERS)
    as [e|]; cbn [negb].
  - split; [split; eauto|]. split; [|discriminate].
    rewrite existsb_exists. split.
    + intros (x & Hin & Hx). apply String.eqb_eq in Hx. now subst x.
    + intros Hin. exists model. split; [exact Hin | apply String.eqb_refl].
  - split; [split; [discriminate | intros [e H]; discriminate H]|].
    split; [|reflexivity]. split; [discriminate | contradiction].
Qed.

Lemma catalogue_validity_witness :
  MinerModels.is_valid_model "AntMiner" "S19 Pro" = true /\
  In "S19 Pro" (MinerModels.get_models_by_manufacturer "AntMiner") /\
  MinerModels.is_valid_manufacturer "antminer" = false /\
  MinerModels.get_models_by_manufacturer "antminer" = [].
Proof.
  split; [reflexivity|]. split.
  - apply (proj1 (proj2 (catalogue_validity "AntMiner" "S19 Pro"))).
    reflexivity.
  - split; [reflexivity|].
    apply (proj2 (proj2 (catalogue_validity "antminer" "S19 Pro"))).
    reflexivity.
Defined.

(** X11.  Every model that the classification reports is a valid model of
    the manufacturer it reports, and the manufacturer it reports is valid
    in the catalogue exactly when it is not ["Unknown"]. *)
Theorem classified_models_are_in_catalogue :
  forall (summary : pyval) (m : string) (mo : option string) (a : bool),
    NetworkScanner.classify summary = Ret (Some m, mo, a) ->
    (forall model, mo = Some model ->
                   MinerModels.is_valid_model m model = true) /\
    (MinerModels.is_valid_manufacturer m = true <-> m <> "Unknown").
Proof.
  intros summary m mo a H.
  apply classify_cases in H.
  destruct H as [(_ & H & _) | (_ & _ & [(Hm & Hmo) | (Hm & Hmo)])].
  - discriminate H.
  - injection Hm as ->. subst mo. split; [discriminate|].
    split; [discriminate | congruence].
  - injection Hm as ->. split.
    + intros model ->.
      destruct Hmo as [H|[H|[H|H]]]; try discriminate H;
        injection H as ->; reflexivity.
    + split; [discriminate | reflexivity].
Qed.

Lemma classified_models_are_in_catalogue_witness :
  NetworkScanner.classify (PDict [("Type", PStr "M50S")])
  = Ret (Some "Whatsminer", Some "M50", true) /\
  MinerModels.is_valid_model "Whatsminer" "M50" = true.
Proof.
  split; [reflexivity|].
  apply (proj1 (classified_models_are_in_catalogue
                  (PDict [("Type", PStr "M50S")]) "Whatsminer"
                  (Some "M50") true eq_refl)).
  reflexivity.
Defined.

(* ================================================================== *)
(** * Further properties of the polling cycle                          *)
(* ================================================================== *)

(** The two ways in which [poll_miner] ends. *)
Lemma poll_miner_cases :
  forall (loads : string -> res pyval)
         (devices : string -> Z -> MinerClient.device) (now : string)
         (db : Monitoring.database) (miner : Monitoring.Miner),
    Monitoring.poll_miner loads devices now db miner = (false, db) \/
    exists row db_miner,
      find (fun m => Monitoring.id m =? Monitoring.id miner)
        (Monitoring.miners db) = Some db_miner /\
      Monitoring.miner_id row = Monitoring.id miner /\
      Monitoring.poll_miner loads devices now db miner
      = (true, Monitoring.add_stats db row).
Proof.
  intros loads devices now db miner.
  unfold Monitoring.poll_miner, Monitoring.poll_miner_body.
  destruct (await _) as [all_data|]; cbn [bind]; [|now left].
  destruct (negb (truthy all_data)); [now left|].
  destruct (py_get all_data "summary" (PDict [])) as [summary|];
    cbn [bind]; [|now left].
  destruct (py_get all_data "stats" (PDict [])) as [stats|];
    cbn [bind]; [|now left].
  destruct (MinerClient.parse_summary_data summary) as [sp|];
    cbn [bind]; [|now left].
  destruct (MinerClient.parse_stats_data stats) as [tp|];
    cbn [bind]; [|now left].
  destruct (find _ (Monitoring.miners db)) as [db_miner|] eqn:Hf;
    [|now left].
  right. eexists. exists db_miner. split; [reflexivity|].
  split; [|reflexivity].
  apply find_some in Hf. destruct Hf as [_ Hid].
  apply Z.eqb_eq in Hid. exact Hid.
Qed.

(** X12.  A call of [poll_miner] either returns [False] and leaves the
    database as it was, or returns [True] after adding exactly one row,
    which carries the key of the polled miner; that happens only when the
    miner is still registered. *)
Theorem poll_miner_adds_one_row_or_none :
  forall (loads : string -> res pyval)
         (devices : string -> Z -> MinerClient.device) (now : string)
         (db : Monitoring.database) (miner : Monitoring.Miner),
    Monitoring.poll_miner loads devices now db miner = (false, db) \/
    exists row db_miner,
      find (fun m => Monitoring.id m =? Monitoring.id miner)
        (Monitoring.miners db) = Some db_miner /\
      Monitoring.miner_id row = Monitoring.id miner /\
      Monitoring.poll_miner loads devices now db miner
      = (true, Monitoring.add_stats db row).
Proof. exact poll_miner_cases. Qed.

Section CycleFacts.

Variable loads : string -> res pyval.
Variable devices : string -> Z -> MinerClient.device.
Variable now : string.


End CycleFacts.


(** X14.  A device whose answer decodes but makes [parse_summary_data] or
    [parse_stats_data] raise is counted as failed, and nothing is stored
    for it. *)
Theorem poll_miner_fails_on_unparsable_fields :
  forall (loads : string -> res pyval)
         (devices : string -> Z -> MinerClient.device) (now : string)
         (db : Monitoring.database) (miner : Monitoring.Miner)
         (summary stats : pyval) (e : exn),
    MinerClient._send_command loads
      (devices (Monitoring.ip_address miner) (Monitoring.port miner)
         "summary")
      (MinerClient.command_of "summary") = Ret summary ->
    MinerClient._send_command loads
      (devices (Monitoring.ip_address miner) (Monitoring.port miner)
         "stats")
      (MinerClient.command_of "stats") = Ret stats ->
    MinerClient.parse_summary_data summary = Raise e \/
    MinerClient.parse_stats_data stats = Raise e ->
    Monitoring.poll_miner loads devices now db miner = (false, db).
Proof.
  intros loads devices now db miner summary stats e Hs Ht Hp.
  destruct (send_command_total loads
              (devices (Monitoring.ip_address miner) (Monitoring.port miner)
                 "pools") (MinerClient.command_of "pools")) as [p Hpo].
  destruct (send_command_total loads
              (devices (Monitoring.ip_address miner) (Monitoring.port miner)
                 "devs") (MinerClient.command_of "devs")) as [d Hd].
  unfold Monitoring.poll_miner, Monitoring.poll_miner_body,
    MinerClient.get_all_data, MinerClient.get_summary, MinerClient.get_stats,
    MinerClient.get_pools, MinerClient.get_devs.
  cbn [await]. rewrite Hs, Ht, Hpo, Hd.
  cbn [bind truthy negb py_get dict_get String.eqb Ascii.eqb Bool.eqb].
  destruct Hp as [Hp|Hp].
  - now rewrite Hp.
  - rewrite Hp.
    now destruct (MinerClient.parse_summary_data summary).
Qed.

Lemma poll_miner_fails_on_unparsable_fields_witness :
  MinerClient.parse_summary_data Cases.malformed_value = Raise ValueError /\
  Monitoring.poll_miner Cases.loads_malformed
    (Cases.everywhere Cases.malformed) Farm.now Farm.db Farm.first
  = (false, Farm.db).
Proof.
  split; [reflexivity|].
  apply (poll_miner_fails_on_unparsable_fields Cases.loads_malformed
           (Cases.everywhere Cases.malformed) Farm.now Farm.db Farm.first
           Cases.malformed_value Cases.malformed_value ValueError);
    [reflexivity | reflexivity | left; reflexivity].
Defined.

(* ================================================================== *)
(** * The agent's registry of discovered miners                        *)
(* ================================================================== *)

Section RegistryFacts.

Import AgentRegistry.








End RegistryFacts.



(* ================================================================== *)
(** * Adding discovered miners                                         *)
(* ================================================================== *)

Section AddFacts.

Import Api.

Variable new_key : list Miner -> Z.

Lemma find_app_first {A : Type} (f : A -> bool) (l1 l2 : list A) :
  find f (l1 ++ l2)
  = match find f l1 with
    | Some x => Some x
    | None => find f l2
    end.
Proof.
  induction l1 as [|x t IH]; cbn [app find]; [reflexivity|].
  now destruct (f x).
Qed.

Lemma find_in_some {A : Type} (f : A -> bool) (l : list A) (x : A) :
  In x l -> f x = true -> exists y, find f l = Some y.
Proof.
  intros Hin Hx. destruct (find f l) as [y|] eqn:E; [eauto|].
  rewrite (find_none f l E x Hin) in Hx. discriminate Hx.
Qed.

Lemma existing_at_address (rows : list Miner) (ip : string) (port : Z) :
  In (ip, port) (map address rows) -> exists m, existing rows ip port = Some m.
Proof.
  intros Hin. apply in_map_iff in Hin. destruct Hin as (m & Hm & Hin).
  unfold address in Hm. injection Hm as Hip Hport.
  apply (find_in_some _ rows m Hin).
  now rewrite Hip, Hport, String.eqb_refl, Z.eqb_refl.
Qed.


Lemma add_each_spec (rows : list Miner) (pool_id container_id : option Z)
  (miners : list NetworkScanner.device_record) :
  fst (fst (add_each rows pool_id container_id miners))
  = map (new_miner pool_id container_id) (filter (addable rows) miners) /\
  snd (fst (add_each rows pool_id container_id miners))
  = map NetworkScanner.ip_address (filter (addable rows) miners) /\
  (List.length (snd (fst (add_each rows pool_id container_id miners)))
   + List.length (snd (add_each rows pool_id container_id miners))
   = List.length miners)%nat.
Proof.
  induction miners as [|m rest IH]; cbn [add_each filter map List.length].
  - repeat split.
  - destruct (add_each rows pool_id container_id rest) as [[new added] sk].
    cbn [fst snd] in IH. destruct IH as (Hn & Ha & Hl).
    unfold addable in *.
    destruct (NetworkScanner.is_accessible m); cbn [negb andb fst snd].
    + destruct (existing rows (NetworkScanner.ip_address m)
                  (NetworkScanner.port m));
        cbn [fst snd map List.length]; rewrite <- Hn, <- Ha;
        repeat split; lia.
    + cbn [List.length]. repeat split; try assumption. lia.
Qed.

(** The commit appends one row for each miner handed to [db.add], at the
    address of the entry it was made from. *)
Lemma flush_new_miners (pool_id container_id : option Z)
  (ds : list NetworkScanner.device_record) :
  forall rows,
  exists new,
    flush new_key rows (map (new_miner pool_id container_id) ds)
    = rows ++ new /\
    map address new
    = map (fun d => (NetworkScanner.ip_address d, NetworkScanner.port d))
        ds /\
    Forall (fun m => is_active m = true /\ is_auto_discovered m = true /\
                     Api.pool_id m = pool_id /\
                     Api.container_id m = container_id)
      new.
Proof.
  induction ds as [|d rest IH]; intros rows; cbn [map flush].
  - exists []. rewrite app_nil_r. repeat split. constructor.
  - destruct (IH (rows ++ [new_miner pool_id container_id d (new_key rows)]))
      as (new & Hf & Ha & Hall).
    exists (new_miner pool_id container_id d (new_key rows) :: new).
    split; [rewrite Hf; now rewrite <- app_assoc|].
    split; [cbn [map]; now rewrite Ha|].
    constructor; [repeat split | exact Hall].
Qed.

Lemma filter_nothing {A : Type} (f : A -> bool) (l : list A) :
  (forall x, In x l -> f x = false) -> filter f l = [].
Proof.
  induction l as [|x t IH]; intros H; cbn [filter]; [reflexivity|].
  rewrite (H x (or_introl eq_refl)). apply IH.
  intros y Hy. apply H. now right.
Qed.

Lemma not_addable_after (rows new : list Miner)
  (miners : list NetworkScanner.device_record)
  (m : NetworkScanner.device_record) :
  map address new
  = map (fun d => (NetworkScanner.ip_address d, NetworkScanner.port d))
      (filter (addable rows) miners) ->
  In m miners ->
  addable (rows ++ new) m = false.
Proof.
  intros Hnew Hin. unfold addable at 1.
  destruct (NetworkScanner.is_accessible m) eqn:Ha; [|reflexivity].
  cbn [andb].
  destruct (existing_at_address (rows ++ new) (NetworkScanner.ip_address m)
              (NetworkScanner.port m)) as [y Hy]; [|now rewrite Hy].
  rewrite map_app. apply in_or_app.
  destruct (existing rows (NetworkScanner.ip_address m)
              (NetworkScanner.port m)) as [x|] eqn:Hrows.
  - left. unfold existing in Hrows. apply find_some in Hrows.
    destruct Hrows as [Hx Hp]. apply andb_prop in Hp. destruct Hp as [Hi Hq].
    apply String.eqb_eq in Hi. apply Z.eqb_eq in Hq.
    apply in_map_iff. exists x. split; [|exact Hx].
    unfold address. now rewrite Hi, Hq.
  - right. rewrite Hnew.
    apply (in_map (fun d => (NetworkScanner.ip_address d,
                             NetworkScanner.port d))).
    apply filter_In. split; [exact Hin|].
    unfold addable. now rewrite Ha, Hrows.
Qed.

End AddFacts.

(** What [add_discovered_miners] answers and stores. *)
Lemma add_discovered_miners_spec :
  forall (new_key : list Api.Miner -> Z)
         (miners : list NetworkScanner.device_record)
         (pool_id container_id : option Z) (db : Api.database),
    (forall role, role <> Api.ADMIN ->
       exists detail,
         Api.add_discovered_miners new_key role miners pool_id container_id db
         = inl (Api.Forbidden detail)) /\
    (Api.known (Api.pools db) pool_id = true ->
     Api.known (Api.containers db) container_id = true ->
     exists rep db' new,
       Api.add_discovered_miners new_key Api.ADMIN miners pool_id
         container_id db = inr (rep, db') /\
       Api.added rep + Api.skipped rep = Z.of_nat (List.length miners) /\
       Api.added_ips rep
       = map NetworkScanner.ip_address
           (filter (Api.addable (Api.miners db)) miners) /\
       Api.added rep = Z.of_nat (List.length (Api.added_ips rep)) /\
       Api.miners db' = Api.miners db ++ new /\
       map Api.address new
       = map (fun d => (NetworkScanner.ip_address d, NetworkScanner.port d))
           (filter (Api.addable (Api.miners db)) miners) /\
       Forall (fun m => Api.is_active m = true /\
                        Api.is_auto_discovered m = true /\
                        Api.pool_id m = pool_id /\
                        Api.container_id m = container_id) new /\
       Api.miner_stats db' = Api.miner_stats db /\
       Api.pools db' = Api.pools db /\
       Api.containers db' = Api.containers db).
Proof.
  intros new_key miners pool_id container_id db. split.
  - intros role Hrole. destruct role; [congruence | |]; cbn; eauto.
  - intros Hp Hc. unfold Api.add_discovered_miners. rewrite Hp, Hc.
    cbn [negb].
    destruct (add_each_spec (Api.miners db) pool_id container_id miners)
      as (Hn & Ha & Hl).
    destruct (Api.add_each (Api.miners db) pool_id container_id miners)
      as [[pending added] sk].
    cbn [fst snd] in *.
    destruct (flush_new_miners new_key pool_id container_id
                (filter (Api.addable (Api.miners db)) miners)
                (Api.miners db)) as (new & Hf & Haddr & Hall).
    rewrite <- Hn in Hf.
    eexists. eexists. exists new. split; [reflexivity|].
    cbn [Api.added Api.skipped Api.added_ips Api.miners Api.pools
         Api.containers Api.miner_stats].
    repeat split; try assumption; try congruence. lia.
Qed.



(** X17.  Repeating a request on the table that it produced adds nothing:
    every entry is skipped, and the miners of the table stay as they
    are. *)
Theorem add_discovered_miners_idempotent :
  forall (new_key : list Api.Miner -> Z)
         (miners : list NetworkScanner.device_record)
         (pool_id container_id : option Z) (db db' : Api.database)
         (rep : Api.report),
    Api.add_discovered_miners new_key Api.ADMIN miners pool_id container_id
      db = inr (rep, db') ->
    exists rep' db'',
      Api.add_discovered_miners new_key Api.ADMIN miners pool_id
        container_id db' = inr (rep', db'') /\
      Api.added rep' = 0 /\
      Api.added_ips rep' = [] /\
      Api.skipped rep' = Z.of_nat (List.length miners) /\
      Api.miners db'' = Api.miners db'.
Proof.
  intros new_key miners pool_id container_id db db' rep H.
  assert (Hk : Api.known (Api.pools db) pool_id = true /\
               Api.known (Api.containers db) container_id = true).
  { unfold Api.add_discovered_miners in H.
    destruct (Api.known (Api.pools db) pool_id); [|discriminate H].
    destruct (Api.known (Api.containers db) container_id);
      [auto | discriminate H]. }
  destruct Hk as [Hp Hc].
  destruct (proj2 (add_discovered_miners_spec new_key miners pool_id
                     container_id db) Hp Hc)
    as (rep0 & db0 & new & E & _ & _ & _ & Hrows & Haddr & _ & _
        & Hpools & Hconts).
  rewrite E in H. injection H as -> ->.
  destruct (proj2 (add_discovered_miners_spec new_key miners pool_id
                     container_id db'))
    as (rep' & db'' & new' & E' & Hsum & Hips & Hadd & Hrows' & Haddr' & _);
    [congruence | congruence |].
  assert (Hnone : filter (Api.addable (Api.miners db')) miners = []).
  { apply filter_nothing. intros m Hin. rewrite Hrows.
    now apply (not_addable_after (Api.miners db) new miners). }
  rewrite Hnone in Hips, Haddr'. cbn [map] in Hips, Haddr'.
  apply map_eq_nil in Haddr'. subst new'. rewrite app_nil_r in Hrows'.
  exists rep', db''. split; [exact E'|].
  assert (Ha : Api.added rep' = 0) by (rewrite Hadd, Hips; reflexivity).
  split; [exact Ha|]. split; [exact Hips|]. split; [lia | exact Hrows'].
Qed.

Lemma add_discovered_miners_idempotent_witness :
  exists rep db' rep' db'',
    Api.add_discovered_miners Site.next_key Api.ADMIN Site.request (Some 1)
      None Site.table = inr (rep, db') /\
    Api.added rep = 2 /\
    Api.add_discovered_miners Site.next_key Api.ADMIN Site.request (Some 1)
      None db' = inr (rep', db'') /\
    Api.added rep' = 0 /\
    Api.skipped rep' = 4.
Proof.
  destruct (Api.add_discovered_miners Site.next_key Api.ADMIN Site.request
              (Some 1) None Site.table) as [err|[rep db']] eqn:E;
    [discriminate E|].
  destruct (add_discovered_miners_idempotent Site.next_key Site.request
              (Some 1) None Site.table db' rep E)
    as (rep' & db'' & E' & Ha & _ & Hs & _).
  exists rep, db', rep', db''.
  split; [reflexivity|]. split; [now injection E as <- _|].
  split; [exact E'|]. split; [exact Ha | exact Hs].
Defined.

(* ================================================================== *)
(** * Synchronising an agent                                           *)
(* ================================================================== *)

Section SyncFacts.

Import Api.

Variable new_key : list Miner -> Z.
Variable site_id : option Z.















End SyncFacts.











(** With two rows at an address the update reaches the first of them
    only. *)
Example sync_agent_data_updates_first_row_only :
  map Api.is_active
    (Api.miners
       (snd (Api.sync_agent_data Site.next_key None Site.sync_request
               Site.doubled)))
  = [true; false; true].
Proof. reflexivity. Qed.

